(** * KMRL document console: the filter, fetch and mutation logic of [App.jsx]

    A shallow embedding of the stateful core of [src/App.jsx]: the React state
    of the [App] component, its asynchronous event handlers
    ([fetchDocuments], [handleFileUpload], [handleDeleteDocument],
    [handleStarDocument], [handleViewDocument]), the debounce effect that
    schedules [fetchDocuments], and the click wiring of [DocumentViewModal].

    Asynchronous handlers are terms of a small resumption monad [Task]: a
    handler runs until it awaits the network, is suspended with its
    continuation, and is resumed with the outcome of the request.  The
    closures of one render read the state snapshot of that render; they are
    defined in a section over that snapshot. *)

From Stdlib Require Import String List ZArith NArith Bool Lia DecimalString.
Import ListNotations.
Open Scope string_scope.

(** ** Data model *)

(** A document record as the handlers and the modal read it. *)
Record Doc := mkDoc {
  _id : string;
  title : string;
  summary : string;
  status : string;
  department : string;
  type : string;
  date : string;
  language : string;
  tags : list string;
  source : string;
  starred : bool;
  content : option string;
  tables_data : list (list (list string))
}.

(** [{ ...doc, starred: b }] *)
Definition spread_starred (doc : Doc) (b : bool) : Doc :=
  {| _id := _id doc; title := title doc; summary := summary doc;
     status := status doc; department := department doc; type := type doc;
     date := date doc; language := language doc; tags := tags doc;
     source := source doc; starred := b; content := content doc;
     tables_data := tables_data doc |}.

(** The [useState] cells of [App], in declaration order. *)
Record State := mkState {
  activeTab : string;
  searchQuery : string;
  selectedDepartment : string;
  selectedDocType : string;
  notifications : Z;
  documents : list Doc;
  totalDocuments : Z;
  loading : bool;
  error : option string;
  viewingDocument : option Doc
}.

(** The initial values passed to [useState]. *)
Definition initialState : State :=
  {| activeTab := "dashboard"; searchQuery := EmptyString; selectedDepartment := "all";
     selectedDocType := "all-types"; notifications := 15; documents := [];
     totalDocuments := 0; loading := true; error := None;
     viewingDocument := None |}.

(** A file of the file-selection control; only its name is observed. *)
Record File := mkFile { file_name : string }.

(** ** Requests and responses *)

Inductive Method := GET | POST | PUT | DELETE.

Inductive RequestBody :=
| NoBody
| FormData (file : File)            (* formData.append("file", file) *)
| StarredJson (flag : bool).        (* JSON.stringify({ starred: flag }) *)

(** A call of [fetch].  The query string built by [URLSearchParams] is kept
    as the ordered list of appended pairs; its percent-encoding by
    [toString] is not modelled. *)
Record Request := mkRequest {
  method : Method;
  url : string;
  params : list (string * string);
  headers : list (string * string);
  body : RequestBody
}.

(** What [response.json()] can yield for the endpoints of this client. *)
Inductive Payload :=
| DocumentList (docs : list Doc) (total : Z)  (* { documents, pagination: { total } } *)
| NewDocument (doc : Doc)                     (* the summary of an upload *)
| ErrorBody (message : option string)         (* { error?: string } *)
| EmptyObject.

Inductive ResponseBody :=
| NotJson (message : string)         (* response.json() rejects *)
| Json (data : Payload).

Record Response := mkResponse {
  resp_status : N;
  resp_body : ResponseBody
}.

(** [response.ok]: the status is in the range 200-299. *)
Definition ok (r : Response) : bool :=
  ((200 <=? resp_status r) && (resp_status r <=? 299))%N.

(** The outcome of [await fetch(...)]: the promise rejects (transport
    failure) or resolves with a response. *)
Inductive FetchResult :=
| Rejected (message : string)
| Resolved (r : Response).

(** ** Effects and the task monad *)

(** Synchronous operations a handler performs. *)
Inductive Op : Type -> Type :=
| SetActiveTab (v : string) : Op unit
| SetSearchQuery (v : string) : Op unit
| SetSelectedDepartment (v : string) : Op unit
| SetSelectedDocType (v : string) : Op unit
| SetDocuments (f : list Doc -> list Doc) : Op unit
| SetTotalDocuments (f : Z -> Z) : Op unit
| SetLoading (v : bool) : Op unit
| SetError (v : option string) : Op unit
| SetViewingDocument (v : option Doc) : Op unit
| EventTargetFiles : Op (list File)          (* event.target.files *)
| ClearEventTargetValue : Op unit            (* event.target.value = null *)
| WindowConfirm (message : string) : Op bool
| Alert (message : string) : Op unit
| ConsoleError (label detail : string) : Op unit.

(** A handler: it returns, throws an [Error] with a message, performs a
    synchronous operation, awaits a [fetch], or calls another async function
    without awaiting it ([Fork]: the callee runs up to its first [await],
    then the caller goes on). *)
Inductive Task (A : Type) : Type :=
| Ret (a : A)
| Throw (message : string)
| Do {B : Type} (op : Op B) (k : B -> Task A)
| Await (req : Request) (k : FetchResult -> Task A)
| Fork (child : Task unit) (k : Task A).

Arguments Ret {A} a.
Arguments Throw {A} message.
Arguments Do {A B} op k.
Arguments Await {A} req k.
Arguments Fork {A} child k.

Fixpoint bind {A B : Type} (t : Task A) (f : A -> Task B) : Task B :=
  match t with
  | Ret a => f a
  | Throw e => Throw e
  | Do op k => Do op (fun b => bind (k b) f)
  | Await req k => Await req (fun r => bind (k r) f)
  | Fork child k => Fork child (bind k f)
  end.

(** [try { t } catch (e) { h e }] *)
Fixpoint try_catch {A : Type} (t : Task A) (h : string -> Task A) : Task A :=
  match t with
  | Ret a => Ret a
  | Throw e => h e
  | Do op k => Do op (fun b => try_catch (k b) h)
  | Await req k => Await req (fun r => try_catch (k r) h)
  | Fork child k => Fork child (try_catch k h)
  end.

(** [try { t } finally { f }] *)
Fixpoint try_finally {A : Type} (t : Task A) (f : Task unit) : Task A :=
  match t with
  | Ret a => bind f (fun _ => Ret a)
  | Throw e => bind f (fun _ => Throw e)
  | Do op k => Do op (fun b => try_finally (k b) f)
  | Await req k => Await req (fun r => try_finally (k r) f)
  | Fork child k => Fork child (try_finally k f)
  end.

Definition perform {B : Type} (op : Op B) : Task B := Do op Ret.
Definition fetch (req : Request) : Task FetchResult := Await req Ret.

Declare Scope task_scope.
Delimit Scope task_scope with task.
Notation "x <- t ;; k" := (bind t (fun x => k))
  (at level 61, t at next level, right associativity) : task_scope.
Notation "t ;; k" := (bind t (fun _ => k))
  (at level 61, right associativity) : task_scope.
Notation "'try' t 'catch' e '=>' h" := (try_catch t (fun e => h))
  (at level 62, e name, t at level 61, h at level 61) : task_scope.
Open Scope task_scope.

(** [await fetch(...)]: a rejected promise is thrown at the [await]. *)
Definition await_fetch (req : Request) : Task Response :=
  r <- fetch req ;;
  match r with
  | Rejected e => Throw e
  | Resolved resp => Ret resp
  end.

(** [await response.json()] *)
Definition json (resp : Response) : Task Payload :=
  match resp_body resp with
  | NotJson e => Throw e
  | Json data => Ret data
  end.

(** The one-character string holding a double quote. *)
Definition dquote : string := String (Ascii.ascii_of_nat 34) EmptyString.

(** Numbers are IEEE doubles.  The totals this client holds are integers,
    kept here as the integer a double stands for; an integer result that no
    double holds is rounded to the nearest one, ties to the even
    significand.  Integers of magnitude up to 2^53 are held exactly; beyond,
    a double has 53 significant bits.  (Magnitudes below 2^1024.) *)
Definition double_round (z : Z) : Z :=
  let a := Z.abs z in
  if (a <=? 2 ^ 53)%Z then z
  else
    let e := (Z.log2 a - 52)%Z in
    let q := (a / 2 ^ e)%Z in
    let r := (a mod 2 ^ e)%Z in
    let half := (2 ^ (e - 1))%Z in
    let q' := if (r <? half)%Z then q
              else if (half <? r)%Z then (q + 1)%Z
              else if Z.even q then q else (q + 1)%Z in
    (Z.sgn z * (q' * 2 ^ e))%Z.

(** [prev - 1] on doubles holding integers. *)
Definition minus_one (prev : Z) : Z := double_round (prev - 1).

(** Template-literal rendering of a number. *)
Definition show_N (n : N) : string := NilZero.string_of_uint (N.to_uint n).

(** ** The closures of one render *)

Section Render.

(** The state snapshot the closures of this render have captured. *)
Variable render : State.

(** [fetchDocuments], lines 102-131. *)
Definition fetch_params : list (string * string) :=
  (if String.eqb (searchQuery render) EmptyString then []
   else [("search", searchQuery render)])
  ++ (if String.eqb (selectedDepartment render) "all" then []
      else [("department", selectedDepartment render)])
  ++ (if String.eqb (selectedDocType render) "all-types" then []
      else [("type", selectedDocType render)]).

Definition fetchDocuments : Task unit :=
  perform (SetLoading true) ;;
  perform (SetError None) ;;
  try_finally
    (try
       (response <- await_fetch
          {| method := GET; url := "http://localhost:5000/api/documents";
             params := fetch_params; headers := []; body := NoBody |} ;;
        (if negb (ok response)
         then Throw ("HTTP error! status: " ++ show_N (resp_status response))
         else Ret tt) ;;
        data <- json response ;;
        match data with
        | DocumentList docs total =>
            perform (SetDocuments (fun _ => docs)) ;;
            perform (SetTotalDocuments (fun _ => total))
        | _ =>
            (* [data.pagination] is undefined: reading [.total] throws *)
            Throw "Cannot read properties of undefined (reading 'total')"
        end)
     catch e =>
       (perform (ConsoleError "Failed to fetch documents:" e) ;;
        perform (SetError (Some "Could not load documents. Please try again later.")) ;;
        perform (SetDocuments (fun _ => []))))
    (perform (SetLoading false)).

(** [handleFileUpload], lines 160-195.  [fetchDocuments()] is called
    without [await]. *)
Definition handleFileUpload : Task unit :=
  files <- perform EventTargetFiles ;;
  match files with
  | [] => Ret tt                  (* [files[0]] is undefined: return *)
  | file :: _ =>
      perform (SetLoading true) ;;
      perform (SetError None) ;;
      try_finally
        (try
           (response <- await_fetch
              {| method := POST;
                 url := "http://localhost:5000/api/documents/upload";
                 params := []; headers := []; body := FormData file |} ;;
            (if negb (ok response)
             then
               errData <- json response ;;
               Throw (match errData with
                      | ErrorBody (Some msg) =>
                          if String.eqb msg EmptyString then "File upload failed" else msg
                      | _ => "File upload failed"
                      end)
             else Ret tt) ;;
            newDocument <- json response ;;
            perform (Alert ("Successfully uploaded and processed: " ++
                            match newDocument with
                            | NewDocument doc => title doc
                            | _ => "undefined"
                            end)) ;;
            Fork fetchDocuments (Ret tt))
         catch e =>
           (perform (ConsoleError "Error uploading file:" e) ;;
            perform (SetError (Some ("File upload failed: " ++ e))) ;;
            perform (Alert ("File upload failed: " ++ e))))
        (perform (SetLoading false) ;;
         perform ClearEventTargetValue)
  end.

(** [handleDeleteDocument], lines 216-244.  [documents] is the list of
    this render; the total is updated functionally. *)
Definition handleDeleteDocument (docId : string) : Task unit :=
  confirmed <- perform (WindowConfirm
    "Are you sure you want to permanently delete this document?") ;;
  if negb confirmed then Ret tt
  else
    try
      (response <- await_fetch
         {| method := DELETE;
            url := "http://localhost:5000/api/documents/" ++ docId;
            params := []; headers := []; body := NoBody |} ;;
       (if negb (ok response)
        then Throw "Failed to delete the document."
        else Ret tt) ;;
       perform (SetDocuments (fun _ =>
         filter (fun doc => negb (String.eqb (_id doc) docId))
                (documents render))) ;;
       perform (SetTotalDocuments (fun prev => minus_one prev)) ;;
       perform (Alert "Document deleted successfully."))
    catch e =>
      (perform (ConsoleError "Error deleting document:" e) ;;
       perform (Alert e)).

(** [handleViewDocument], lines 246-248. *)
Definition handleViewDocument (doc : Doc) : Task unit :=
  perform (SetViewingDocument (Some doc)).

(** [handleStarDocument], lines 254-290. *)
Definition handleStarDocument (docToUpdate : Doc) : Task unit :=
  let newStarredState := negb (starred docToUpdate) in
  try
    (response <- await_fetch
       {| method := PUT;
          url := "http://localhost:5000/api/documents/" ++ _id docToUpdate;
          params := [];
          headers := [("Content-Type", "application/json")];
          body := StarredJson newStarredState |} ;;
     (if negb (ok response)
      then Throw "Failed to update document."
      else Ret tt) ;;
     perform (SetDocuments (fun currentDocuments =>
       map (fun doc =>
              if String.eqb (_id doc) (_id docToUpdate)
              then spread_starred doc newStarredState
              else doc)
           currentDocuments)) ;;
     perform (Alert ("Document " ++ dquote ++ title docToUpdate ++ dquote ++
                     " has been " ++
                     (if newStarredState then "starred" else "unstarred") ++
                     "!")))
  catch e =>
    (perform (ConsoleError "Error starring document:" e) ;;
     perform (Alert e)).

(** The [onClose] prop given to the modal, line 1081. *)
Definition onClose : Task unit := perform (SetViewingDocument None).

End Render.

(** The click wiring of [DocumentViewModal], lines 1090-1237: the backdrop
    and both close buttons call [onClose]; the panel stops propagation, so a
    click inside it never reaches the backdrop. *)
Inductive ModalTarget := Backdrop | Panel | HeaderCloseButton | FooterCloseButton.

Definition DocumentViewModal_click (close : Task unit) (target : ModalTarget)
  : Task unit :=
  match target with
  | Backdrop => close
  | Panel => Ret tt
  | HeaderCloseButton => close
  | FooterCloseButton => close
  end.

(** [{viewingDocument && <DocumentViewModal ... />}], lines 1078-1084: the
    modal, and so its click targets, exist only while a document is viewed. *)
Definition modal_click (render : State) (target : ModalTarget) : Task unit :=
  match viewingDocument render with
  | Some _ => DocumentViewModal_click onClose target
  | None => Ret tt
  end.

(** ** The world a task runs in *)

Inductive Effect :=
| Alerted (message : string)
| ConsoleErrored (label detail : string)
| Confirmed (message : string) (answer : bool)
| Requested (req : Request).

(** The pending [setTimeout] of the debounce effect. *)
Record Timer := mkTimer {
  due : N;
  callback : Task unit
}.

Record World := mkWorld {
  state : State;
  (* dependencies of the memoised [fetchDocuments] of the last commit *)
  memoDeps : string * string * string;
  debounceTimer : option Timer;
  (* requests awaiting their response, with the suspended handler *)
  inflight : list (Request * (FetchResult -> Task unit));
  (* the files held by the file-selection control *)
  fileInput : list File;
  (* what the user answers to a [window.confirm] dialog *)
  confirmAnswer : string -> bool;
  clock : N;
  (* the observable effects so far, oldest first, with their time *)
  log : list (N * Effect)
}.

Definition with_state (f : State -> State) (w : World) : World :=
  {| state := f (state w); memoDeps := memoDeps w;
     debounceTimer := debounceTimer w; inflight := inflight w;
     fileInput := fileInput w; confirmAnswer := confirmAnswer w;
     clock := clock w; log := log w |}.

Definition with_timer (t : option Timer) (w : World) : World :=
  {| state := state w; memoDeps := memoDeps w;
     debounceTimer := t; inflight := inflight w;
     fileInput := fileInput w; confirmAnswer := confirmAnswer w;
     clock := clock w; log := log w |}.

Definition with_memoDeps (d : string * string * string) (w : World) : World :=
  {| state := state w; memoDeps := d;
     debounceTimer := debounceTimer w; inflight := inflight w;
     fileInput := fileInput w; confirmAnswer := confirmAnswer w;
     clock := clock w; log := log w |}.

Definition with_inflight
  (l : list (Request * (FetchResult -> Task unit))) (w : World) : World :=
  {| state := state w; memoDeps := memoDeps w;
     debounceTimer := debounceTimer w; inflight := l;
     fileInput := fileInput w; confirmAnswer := confirmAnswer w;
     clock := clock w; log := log w |}.

Definition with_fileInput (l : list File) (w : World) : World :=
  {| state := state w; memoDeps := memoDeps w;
     debounceTimer := debounceTimer w; inflight := inflight w;
     fileInput := l; confirmAnswer := confirmAnswer w;
     clock := clock w; log := log w |}.

Definition with_clock (t : N) (w : World) : World :=
  {| state := state w; memoDeps := memoDeps w;
     debounceTimer := debounceTimer w; inflight := inflight w;
     fileInput := fileInput w; confirmAnswer := confirmAnswer w;
     clock := t; log := log w |}.

Definition emit (e : Effect) (w : World) : World :=
  {| state := state w; memoDeps := memoDeps w;
     debounceTimer := debounceTimer w; inflight := inflight w;
     fileInput := fileInput w; confirmAnswer := confirmAnswer w;
     clock := clock w; log := log w ++ [(clock w, e)] |}.

(** State setters. *)
Definition set_activeTab (v : string) (s : State) : State :=
  {| activeTab := v; searchQuery := searchQuery s;
     selectedDepartment := selectedDepartment s;
     selectedDocType := selectedDocType s; notifications := notifications s;
     documents := documents s; totalDocuments := totalDocuments s;
     loading := loading s; error := error s;
     viewingDocument := viewingDocument s |}.

Definition set_searchQuery (v : string) (s : State) : State :=
  {| activeTab := activeTab s; searchQuery := v;
     selectedDepartment := selectedDepartment s;
     selectedDocType := selectedDocType s; notifications := notifications s;
     documents := documents s; totalDocuments := totalDocuments s;
     loading := loading s; error := error s;
     viewingDocument := viewingDocument s |}.

Definition set_selectedDepartment (v : string) (s : State) : State :=
  {| activeTab := activeTab s; searchQuery := searchQuery s;
     selectedDepartment := v;
     selectedDocType := selectedDocType s; notifications := notifications s;
     documents := documents s; totalDocuments := totalDocuments s;
     loading := loading s; error := error s;
     viewingDocument := viewingDocument s |}.

Definition set_selectedDocType (v : string) (s : State) : State :=
  {| activeTab := activeTab s; searchQuery := searchQuery s;
     selectedDepartment := selectedDepartment s;
     selectedDocType := v; notifications := notifications s;
     documents := documents s; totalDocuments := totalDocuments s;
     loading := loading s; error := error s;
     viewingDocument := viewingDocument s |}.

Definition set_documents (f : list Doc -> list Doc) (s : State) : State :=
  {| activeTab := activeTab s; searchQuery := searchQuery s;
     selectedDepartment := selectedDepartment s;
     selectedDocType := selectedDocType s; notifications := notifications s;
     documents := f (documents s); totalDocuments := totalDocuments s;
     loading := loading s; error := error s;
     viewingDocument := viewingDocument s |}.

Definition set_totalDocuments (f : Z -> Z) (s : State) : State :=
  {| activeTab := activeTab s; searchQuery := searchQuery s;
     selectedDepartment := selectedDepartment s;
     selectedDocType := selectedDocType s; notifications := notifications s;
     documents := documents s; totalDocuments := f (totalDocuments s);
     loading := loading s; error := error s;
     viewingDocument := viewingDocument s |}.

Definition set_loading (v : bool) (s : State) : State :=
  {| activeTab := activeTab s; searchQuery := searchQuery s;
     selectedDepartment := selectedDepartment s;
     selectedDocType := selectedDocType s; notifications := notifications s;
     documents := documents s; totalDocuments := totalDocuments s;
     loading := v; error := error s;
     viewingDocument := viewingDocument s |}.

Definition set_error (v : option string) (s : State) : State :=
  {| activeTab := activeTab s; searchQuery := searchQuery s;
     selectedDepartment := selectedDepartment s;
     selectedDocType := selectedDocType s; notifications := notifications s;
     documents := documents s; totalDocuments := totalDocuments s;
     loading := loading s; error := v;
     viewingDocument := viewingDocument s |}.

Definition set_viewingDocument (v : option Doc) (s : State) : State :=
  {| activeTab := activeTab s; searchQuery := searchQuery s;
     selectedDepartment := selectedDepartment s;
     selectedDocType := selectedDocType s; notifications := notifications s;
     documents := documents s; totalDocuments := totalDocuments s;
     loading := loading s; error := error s;
     viewingDocument := v |}.

(** One synchronous operation. *)
Definition exec {B : Type} (op : Op B) (w : World) : B * World :=
  match op in Op T return T * World with
  | SetActiveTab v => (tt, with_state (set_activeTab v) w)
  | SetSearchQuery v => (tt, with_state (set_searchQuery v) w)
  | SetSelectedDepartment v => (tt, with_state (set_selectedDepartment v) w)
  | SetSelectedDocType v => (tt, with_state (set_selectedDocType v) w)
  | SetDocuments f => (tt, with_state (set_documents f) w)
  | SetTotalDocuments f => (tt, with_state (set_totalDocuments f) w)
  | SetLoading v => (tt, with_state (set_loading v) w)
  | SetError v => (tt, with_state (set_error v) w)
  | SetViewingDocument v => (tt, with_state (set_viewingDocument v) w)
  | EventTargetFiles => (fileInput w, w)
  | ClearEventTargetValue => (tt, with_fileInput [] w)
  | WindowConfirm msg =>
      let answer := confirmAnswer w msg in
      (answer, emit (Confirmed msg answer) w)
  | Alert msg => (tt, emit (Alerted msg) w)
  | ConsoleError label detail => (tt, emit (ConsoleErrored label detail) w)
  end.

(** How a run of a task ends: it returned, threw, or is suspended at an
    [await] with the rest of the handler. *)
Inductive Outcome (A : Type) : Type :=
| Returned (a : A)
| Threw (message : string)
| Suspended (req : Request) (k : FetchResult -> Task A).

Arguments Returned {A} a.
Arguments Threw {A} message.
Arguments Suspended {A} req k.

(** A suspended handler waits in the in-flight table. *)
Definition park (o : Outcome unit) (w : World) : World :=
  match o with
  | Suspended req k => with_inflight (inflight w ++ [(req, k)]) w
  | _ => w
  end.

(** Run a task up to its first [await] (or to its end).  The request of the
    [await] is logged when it is issued. *)
Fixpoint run {A : Type} (t : Task A) (w : World) : Outcome A * World :=
  match t with
  | Ret a => (Returned a, w)
  | Throw e => (Threw e, w)
  | Do op k => let (b, w') := exec op w in run (k b) w'
  | Await req k => (Suspended req k, emit (Requested req) w)
  | Fork child k =>
      let (o, w') := run child w in
      run k (park o w')
  end.

(** ** Renders, the debounce effect and the event loop *)

(** The dependency array of [useCallback] for [fetchDocuments]. *)
Definition deps (s : State) : string * string * string :=
  (searchQuery s, selectedDepartment s, selectedDocType s).

Definition deps_eqb (a b : string * string * string) : bool :=
  let '(q1, d1, t1) := a in
  let '(q2, d2, t2) := b in
  String.eqb q1 q2 && String.eqb d1 d2 && String.eqb t1 t2.

(** The debounce delay of [setTimeout], in milliseconds. *)
Definition debounceDelay : N := 500.

(** The effect of lines 133-139.  [fetchDocuments] is re-created only when
    one of its three dependencies differs from the previous render; only
    then does the effect run again: its cleanup clears the pending timer and
    a new one is set, whose callback calls the new [fetchDocuments]. *)
Definition commit (w : World) : World :=
  if deps_eqb (deps (state w)) (memoDeps w) then w
  else
    with_timer
      (Some {| due := clock w + debounceDelay;
               callback := Fork (fetchDocuments (state w)) (Ret tt) |})
      (with_memoDeps (deps (state w)) w).

(** An event handler runs to its first [await]; the render that follows
    commits the effect. *)
Definition dispatch (t : Task unit) (w : World) : World :=
  let (o, w') := run t w in commit (park o w').

(** The first render: the effect runs unconditionally. *)
Definition mount (answers : string -> bool) : World :=
  {| state := initialState; memoDeps := deps initialState;
     debounceTimer :=
       Some {| due := debounceDelay;
               callback := Fork (fetchDocuments initialState) (Ret tt) |};
     inflight := []; fileInput := []; confirmAnswer := answers;
     clock := 0; log := [] |}.

(** The three filter axes and their setters, as the controls call them. *)
Inductive Axis := Query | OrgUnit | Category.

Definition setAxis (a : Axis) (v : string) : Task unit :=
  match a with
  | Query => perform (SetSearchQuery v)
  | OrgUnit => perform (SetSelectedDepartment v)
  | Category => perform (SetSelectedDocType v)
  end.

(** Time passes: a timer that falls due fires at its due time.  Its
    callback writes no filter axis, so it sets no further timer. *)
Definition elapse (dt : N) (w : World) : World :=
  match debounceTimer w with
  | Some tm =>
      if (due tm <=? clock w + dt)%N
      then with_clock (clock w + dt)
             (dispatch (callback tm) (with_clock (due tm) (with_timer None w)))
      else with_clock (clock w + dt) w
  | None => with_clock (clock w + dt) w
  end.

Fixpoint remove_nth {A : Type} (i : nat) (l : list A) : list A :=
  match l, i with
  | [], _ => []
  | _ :: l', O => l'
  | x :: l', S i' => x :: remove_nth i' l'
  end.

(** The response to the [i]-th request in flight arrives. *)
Definition respond (i : nat) (r : FetchResult) (w : World) : World :=
  match nth_error (inflight w) i with
  | Some (_, k) => dispatch (k r) (with_inflight (remove_nth i (inflight w)) w)
  | None => w
  end.

(** What can happen to the mounted component. *)
Inductive Event :=
| Write (a : Axis) (v : string)        (* a filter control is written *)
| Elapse (dt : N)
| Respond (i : nat) (r : FetchResult)
| SelectFiles (files : list File)      (* the file dialog closes: onChange *)
| ClickView (i : nat)                  (* the buttons of the i-th listed row *)
| ClickStar (i : nat)
| ClickDelete (i : nat)
| ClickModal (target : ModalTarget).

Definition on_row (i : nat) (h : Doc -> Task unit) (w : World) : World :=
  match nth_error (documents (state w)) i with
  | Some doc => dispatch (h doc) w
  | None => w
  end.

Definition step (e : Event) (w : World) : World :=
  match e with
  | Write a v => dispatch (setAxis a v) w
  | Elapse dt => elapse dt w
  | Respond i r => respond i r w
  | SelectFiles files =>
      dispatch (handleFileUpload (state w)) (with_fileInput files w)
  | ClickView i => on_row i handleViewDocument w
  | ClickStar i => on_row i handleStarDocument w
  | ClickDelete i =>
      on_row i (fun doc => handleDeleteDocument (state w) (_id doc)) w
  | ClickModal target => dispatch (modal_click (state w) target) w
  end.

Definition steps (es : list Event) (w : World) : World :=
  fold_left (fun w e => step e w) es w.

(** The requests issued so far, with their times. *)
Definition requests (w : World) : list (N * Request) :=
  flat_map (fun te => match snd te with
                      | Requested req => [(fst te, req)]
                      | _ => []
                      end) (log w).

Definition refreshes (w : World) : list (N * Request) :=
  filter (fun tr => match method (snd tr) with GET => true | _ => false end)
         (requests w).

(** The rest of handler [t], started in world [w0], once its [await] has
    received [r]. *)
Definition resume {A : Type} (t : Task A) (w0 : World) (r : FetchResult)
  : Task A :=
  match fst (run t w0) with
  | Suspended _ k => k r
  | Returned a => Ret a
  | Threw e => Throw e
  end.

(** A handler run with its request answered at once, nothing in between. *)
Definition complete {A : Type} (t : Task A) (r : FetchResult) (w : World)
  : Outcome A * World :=
  run (resume t w r) (snd (run t w)).

(** The [GET] request of [fetchDocuments] for a render. *)
Definition refresh_request (render : State) : Request :=
  {| method := GET; url := "http://localhost:5000/api/documents";
     params := fetch_params render; headers := []; body := NoBody |}.

(** A refresh fails when the promise rejects or the status is not 2xx. *)
Definition failed (r : FetchResult) : bool :=
  match r with
  | Rejected _ => true
  | Resolved resp => negb (ok resp)
  end.

Definition refresh_error : string :=
  "Could not load documents. Please try again later.".

(** The requests and messages of the mutation handlers. *)
Definition delete_prompt : string :=
  "Are you sure you want to permanently delete this document?".

Definition delete_request (docId : string) : Request :=
  {| method := DELETE; url := "http://localhost:5000/api/documents/" ++ docId;
     params := []; headers := []; body := NoBody |}.

Definition star_request (docToUpdate : Doc) : Request :=
  {| method := PUT;
     url := "http://localhost:5000/api/documents/" ++ _id docToUpdate;
     params := []; headers := [("Content-Type", "application/json")];
     body := StarredJson (negb (starred docToUpdate)) |}.

Definition upload_request (file : File) : Request :=
  {| method := POST; url := "http://localhost:5000/api/documents/upload";
     params := []; headers := []; body := FormData file |}.

(** The message of the error a failed mutation throws: the rejection's own
    message, or the handler's message for a non-2xx status. *)
Definition failure_message (fallback : string) (r : FetchResult) : string :=
  match r with
  | Rejected e => e
  | Resolved _ => fallback
  end.

(** [documents.filter((doc) => doc._id !== docId)] *)
Definition without (docId : string) (docs : list Doc) : list Doc :=
  filter (fun doc => negb (String.eqb (_id doc) docId)) docs.

(** The [map] of [handleStarDocument]. *)
Definition restar (docToUpdate : Doc) (docs : list Doc) : list Doc :=
  map (fun doc =>
         if String.eqb (_id doc) (_id docToUpdate)
         then spread_starred doc (negb (starred docToUpdate))
         else doc) docs.

(** Whether a click on this part of the modal closes it. *)
Definition closes (target : ModalTarget) : bool :=
  match target with
  | Panel => false
  | _ => true
  end.

(** The texts of the upload handler. *)
Definition upload_generic_failure : string := "File upload failed".

(** [errData.error || "File upload failed"]: a missing or empty [error] is
    falsy. *)
Definition upload_error_of (errData : Payload) : string :=
  match errData with
  | ErrorBody (Some msg) =>
      if String.eqb msg EmptyString then upload_generic_failure else msg
  | _ => upload_generic_failure
  end.

Definition upload_success_text (newDocument : Doc) : string :=
  "Successfully uploaded and processed: " ++ title newDocument.

Definition upload_failure_text (message : string) : string :=
  "File upload failed: " ++ message.

(** ** Bursts of filter writes *)

(** A write with the time elapsed since the event before it. *)
Definition TimedWrite : Type := N * (Axis * string).

Fixpoint play (ws : list TimedWrite) (w : World) : World :=
  match ws with
  | [] => w
  | (gap, (a, v)) :: ws' => play ws' (step (Write a v) (step (Elapse gap) w))
  end.

(** Every write comes less than the debounce delay after the one before. *)
Definition within_window (ws : list TimedWrite) : bool :=
  forallb (fun tw => (fst tw <? debounceDelay)%N) ws.

(** What the setter of an axis does to the state. *)
Definition set_axis (a : Axis) (v : string) (s : State) : State :=
  match a with
  | Query => set_searchQuery v s
  | OrgUnit => set_selectedDepartment v s
  | Category => set_selectedDocType v s
  end.

(** The filter vector after plain assignment of all the writes. *)
Definition last_written (ws : list TimedWrite) (s : State) : State :=
  fold_left (fun s tw => set_axis (fst (snd tw)) (snd (snd tw)) s) ws s.

(** Whether a write gives its axis a value it does not already have. *)
Definition changes (a : Axis) (v : string) (s : State) : bool :=
  negb (deps_eqb (deps (set_axis a v s)) (deps s)).

Fixpoint all_change (ws : list TimedWrite) (s : State) : bool :=
  match ws with
  | [] => true
  | (_, (a, v)) :: ws' => changes a v s && all_change ws' (set_axis a v s)
  end.

(** Every write of the burst finds a refresh scheduled and not yet fired. *)
Fixpoint refresh_pending (ws : list TimedWrite) (w : World) : bool :=
  match ws with
  | [] => true
  | (gap, (a, v)) :: ws' =>
      let w1 := step (Elapse gap) w in
      match debounceTimer w1 with
      | Some _ => refresh_pending ws' (step (Write a v) w1)
      | None => false
      end
  end.

(** The time of the last write of the burst that changed the filter vector;
    [now] is the current time and [last] the time of the last change so
    far. *)
Fixpoint last_change (ws : list TimedWrite) (s : State) (now last : N) : N :=
  match ws with
  | [] => last
  | (gap, (a, v)) :: ws' =>
      last_change ws' (set_axis a v s) (now + gap)
        (if changes a v s then now + gap else last)
  end.

(** A refresh is scheduled for [last] plus the delay, by a render whose
    filter vector is the current one, and the render is committed. *)
Definition scheduled (w : World) (last : N) : Prop :=
  memoDeps w = deps (state w)
  /\ (last <= clock w)%N
  /\ exists render,
       deps render = deps (state w)
       /\ debounceTimer w
          = Some {| due := last + debounceDelay;
                    callback := Fork (fetchDocuments render) (Ret tt) |}.

(** C1 as the specification states it: after a burst of writes, the first
    at the current time and each later one within the window, and the
    quiescence delay, exactly one more refresh has been issued, with the
    last-written vector, at the time of the last write plus the delay. *)
Definition debounce_as_stated
  (w : World) (a : Axis) (v : string) (ws : list TimedWrite) : Prop :=
  within_window ws = true ->
  let burst := play ws (step (Write a v) w) in
  refreshes (step (Elapse debounceDelay) burst)
  = (refreshes w
     ++ [((clock burst + debounceDelay)%N, refresh_request (state burst))])%list.

(** C3 as the specification states it, for the delete button of row [i]
    answered by [r]: a declined dialog changes no state and issues no
    request; an accepted one issues the DELETE; on success the identifier is
    absent and the total is one less; on failure list and total are as
    before. *)
Definition delete_as_stated (w : World) (i : nat) (r : FetchResult) : Prop :=
  forall doc,
    nth_error (documents (state w)) i = Some doc ->
    let asked := step (ClickDelete i) w in
    let done := step (Respond (length (inflight w)) r) asked in
    if confirmAnswer w delete_prompt
    then
      requests asked
      = (requests w ++ [(clock w, delete_request (_id doc))])%list
      /\ if failed r
         then documents (state done) = documents (state w)
              /\ totalDocuments (state done) = totalDocuments (state w)
         else ~ In (_id doc) (map _id (documents (state done)))
              /\ totalDocuments (state done)
                 = (totalDocuments (state w) - 1)%Z
    else state asked = state w /\ requests asked = requests w.

(** Two records agree on every field but the starred flag. *)
Definition same_but_starred (a b : Doc) : Prop :=
  _id a = _id b /\ title a = title b /\ summary a = summary b
  /\ status a = status b /\ department a = department b /\ type a = type b
  /\ date a = date b /\ language a = language b /\ tags a = tags b
  /\ source a = source b /\ content a = content b
  /\ tables_data a = tables_data b.

(** What a confirmed star of [docToUpdate] makes of one record: the same
    record, with the inverted flag of [docToUpdate] when it shares its
    identifier and with its own flag otherwise. *)
Definition starred_by (docToUpdate old new : Doc) : Prop :=
  same_but_starred old new
  /\ starred new = (if String.eqb (_id old) (_id docToUpdate)
                   then negb (starred docToUpdate)
                   else starred old).

(** C2 as the specification states it, for the answer [resp] to the [i]-th
    request in flight, a refresh: the store holds the list and the total of
    the response, and no error is set. *)
Definition refresh_success_as_stated
  (w : World) (i : nat) (resp : Response) : Prop :=
  forall docs total,
    option_map (fun e => method (fst e)) (nth_error (inflight w) i) = Some GET ->
    ok resp = true ->
    resp_body resp = Json (DocumentList docs total) ->
    let done := step (Respond i (Resolved resp)) w in
    documents (state done) = docs
    /\ totalDocuments (state done) = total
    /\ error (state done) = None.

(** The message of the error thrown in the [try] block of the upload
    handler for an answer, if it throws: the rejection's message, the
    parser's message for a body that is not JSON, or, for a non-2xx status
    with a JSON body, [errData.error || "File upload failed"]. *)
Definition upload_thrown (r : FetchResult) : option string :=
  match r with
  | Rejected e => Some e
  | Resolved resp =>
      match resp_body resp with
      | NotJson e => Some e
      | Json data => if ok resp then None else Some (upload_error_of data)
      end
  end.

(** What C7 says is surfaced on a failed upload: the error text the server
    reported, or the generic text if it reported none. *)
Definition upload_stated_message (r : FetchResult) : string :=
  match r with
  | Rejected _ => upload_generic_failure
  | Resolved resp =>
      match resp_body resp with
      | NotJson _ => upload_generic_failure
      | Json errData => upload_error_of errData
      end
  end.

(** C7 as the specification states it, for the files chosen in world [w],
    the events [mid] that happen while the upload is in flight, and the
    answer [r]: the file control is cleared; a failure alerts the stated
    message, with or without the prefix of the handler; a success alerts the
    reported title and issues a refresh for the filter vector current at
    that moment. *)
Definition upload_as_stated
  (w : World) (files : list File) (mid : list Event) (r : FetchResult) : Prop :=
  let arrival := steps mid (step (SelectFiles files) w) in
  let done := step (Respond (length (inflight w)) r) arrival in
  let effects := map snd (skipn (length (log arrival)) (log done)) in
  fileInput done = []
  /\ if failed r
     then In (Alerted (upload_stated_message r)) effects
          \/ In (Alerted (upload_failure_text (upload_stated_message r)))
               effects
     else match r with
          | Resolved resp =>
              match resp_body resp with
              | Json (NewDocument newDocument) =>
                  effects
                  = [Alerted (upload_success_text newDocument);
                     Requested (refresh_request (state arrival))]
              | _ => True
              end
          | Rejected _ => True
          end.

(** ** Sample data *)

Definition doc_d1 : Doc :=
  {| _id := "d1"; title := "Circular 12"; summary := "Platform safety";
     status := "urgent"; department := "safety"; type := "Safety Circular";
     date := "2025-01-15"; language := "English"; tags := ["safety"];
     source := "email"; starred := true; content := None;
     tables_data := [] |}.

Definition doc_d2 : Doc :=
  {| _id := "d2"; title := "Invoice 7"; summary := "Spare parts";
     status := "pending"; department := "procurement"; type := "Invoice";
     date := "2025-02-01"; language := "English"; tags := ["invoice"];
     source := "upload"; starred := false; content := Some "Total due";
     tables_data := [[["Item"; "Cost"]; ["Bolt"; "12"]]] |}.

Definition always (answer : bool) : string -> bool := fun _ => answer.

(** A settled world: mounted, the initial refresh answered with two
    documents. *)
Definition world_two_docs (answer : bool) : World :=
  respond 0
    (Resolved {| resp_status := 200;
                 resp_body := Json (DocumentList [doc_d1; doc_d2] 2) |})
    (elapse 1000 (mount (always answer))).

Definition doc_q3 : Doc :=
  {| _id := "d3"; title := "Q3 Report"; summary := "Quarterly figures";
     status := "review"; department := "finance"; type := "Policy";
     date := "2025-10-01"; language := "English"; tags := ["finance"];
     source := "upload"; starred := false; content := None;
     tables_data := [] |}.

(** The settled world with [report.pdf] chosen in the file dialog. *)
Definition world_with_file : World :=
  with_fileInput [{| file_name := "report.pdf" |}] (world_two_docs true).

(** A settled world whose server reports a total beyond 2^53 (the double
    9007199254740994). *)
Definition world_huge_total : World :=
  respond 0
    (Resolved {| resp_status := 200;
                 resp_body :=
                   Json (DocumentList [doc_d1; doc_d2] 9007199254740994) |})
    (elapse 1000 (mount (always true))).

(** Two refreshes overlap: the one for [a] is still in flight when the one
    for [ab] starts, and is then answered 503; the one for [ab] is still in
    flight. *)
Definition world_overlapping_refreshes : World :=
  steps [Write Query "a"; Elapse 500; Write Query "ab"; Elapse 500;
         Respond 0 (Resolved {| resp_status := 503;
                                resp_body := NotJson "Service Unavailable" |})]
    (mount (always true)).

(** * The rest of [App.jsx] *)

(** ** Text helpers

    The character-level methods of JavaScript strings used by the component
    ([toLowerCase], [toUpperCase], [replace(/\s+/g, ...)], [trim], [charAt],
    [slice]) are modelled on ASCII text, where a character is one code unit
    and case mapping keeps the length.  The theorems about them assume
    [is_ascii]. *)

Definition code (c : Ascii.ascii) : nat := Ascii.nat_of_ascii c.

Definition is_ascii_char (c : Ascii.ascii) : bool := (code c <? 128)%nat.

Fixpoint string_forall (p : Ascii.ascii -> bool) (s : string) : bool :=
  match s with
  | EmptyString => true
  | String c s' => p c && string_forall p s'
  end.

Definition is_ascii (s : string) : bool := string_forall is_ascii_char s.

(** The ASCII part of the class [\s] and of what [trim] strips: tab, line
    feed, vertical tab, form feed, carriage return and space. *)
Definition isSpace (c : Ascii.ascii) : bool :=
  (code c =? 32)%nat || ((9 <=? code c)%nat && (code c <=? 13)%nat).

Definition isUpper (c : Ascii.ascii) : bool :=
  ((65 <=? code c)%nat && (code c <=? 90)%nat).

Definition isLower (c : Ascii.ascii) : bool :=
  ((97 <=? code c)%nat && (code c <=? 122)%nat).

Definition toLower (c : Ascii.ascii) : Ascii.ascii :=
  if isUpper c then Ascii.ascii_of_nat (code c + 32) else c.

Definition toUpper (c : Ascii.ascii) : Ascii.ascii :=
  if isLower c then Ascii.ascii_of_nat (code c - 32) else c.

Fixpoint string_map (f : Ascii.ascii -> Ascii.ascii) (s : string) : string :=
  match s with
  | EmptyString => EmptyString
  | String c s' => String (f c) (string_map f s')
  end.

Definition toLowerCase (s : string) : string := string_map toLower s.
Definition toUpperCase (s : string) : string := string_map toUpper s.

Definition hyphen : Ascii.ascii := Ascii.ascii_of_nat 45.

(** [s.replace(/\s+/g, "-")]: every maximal run of white space becomes one
    hyphen.  A white-space character followed by another one is dropped; the
    last of a run is replaced. *)
Fixpoint replace_spaces (s : string) : string :=
  match s with
  | EmptyString => EmptyString
  | String c s' =>
      if isSpace c
      then match s' with
           | String c' _ =>
               if isSpace c' then replace_spaces s'
               else String hyphen (replace_spaces s')
           | EmptyString => String hyphen EmptyString
           end
      else String c (replace_spaces s')
  end.

Fixpoint string_rev (s : string) : string :=
  match s with
  | EmptyString => EmptyString
  | String c s' => string_rev s' ++ String c EmptyString
  end.

Fixpoint trimStart (s : string) : string :=
  match s with
  | EmptyString => EmptyString
  | String c s' => if isSpace c then trimStart s' else s
  end.

Definition trimEnd (s : string) : string :=
  string_rev (trimStart (string_rev s)).

Definition trim (s : string) : string := trimEnd (trimStart s).

(** [s.charAt(0)] and [s.slice(1)] *)
Definition charAt0 (s : string) : string :=
  match s with
  | EmptyString => EmptyString
  | String c _ => String c EmptyString
  end.

Definition slice1 (s : string) : string :=
  match s with
  | EmptyString => EmptyString
  | String _ s' => s'
  end.

(** ** Static configuration, lines 35-83 *)

(** The [id] and [name] of each entry of [departments]; icons and colours
    are presentation. *)
Definition departments : list (string * string) :=
  [ ("all", "All Departments");
    ("operations", "Operations");
    ("engineering", "Engineering");
    ("safety", "Safety");
    ("procurement", "Procurement");
    ("hr", "Human Resources");
    ("finance", "Finance");
    ("environment", "Environment") ].

Definition docTypes : list string :=
  [ "All Types"; "Safety Circular"; "Invoice"; "Engineering Drawing";
    "Maintenance Report"; "Policy"; "Regulatory Directive"; "Impact Study";
    "Board Minutes"; "Training Material"; "Incident Report" ].

(** The [value] of an option of the type select, line 461. *)
Definition docTypeValue (label : string) : string :=
  replace_spaces (toLowerCase label).

(** The values offered by the two selects of [DocumentsContent]. *)
Definition departmentOptions : list string := map fst departments.
Definition docTypeOptions : list string := map docTypeValue docTypes.

(** [departments.slice(1)], the rows of the dashboard overview. *)
Definition departmentOverview : list (string * string) := tl departments.

(** ** Status badge *)

(** [getStatusColor], lines 142-157. *)
Definition getStatusColor (status : string) : string :=
  if String.eqb status "urgent"
  then "bg-red-100 text-red-800 border-red-200"
  else if String.eqb status "pending"
  then "bg-yellow-100 text-yellow-800 border-yellow-200"
  else if String.eqb status "review"
  then "bg-blue-100 text-blue-800 border-blue-200"
  else if String.eqb status "approved"
  then "bg-green-100 text-green-800 border-green-200"
  else if String.eqb status "published"
  then "bg-purple-100 text-purple-800 border-purple-200"
  else "bg-gray-100 text-gray-800 border-gray-200".

Definition knownStatuses : list string :=
  ["urgent"; "pending"; "review"; "approved"; "published"].

(** [doc.status.charAt(0).toUpperCase() + doc.status.slice(1)], lines 523
    and 1136. *)
Definition statusLabel (status : string) : string :=
  toUpperCase (charAt0 status) ++ slice1 status.

(** ** Extracted tables, lines 1146-1184 *)

(** What the modal renders of one table: the header row, when the table has
    a row, and the body rows [tableData.slice(1)]. *)
Definition tableHeader (tableData : list (list string)) : option (list string) :=
  match tableData with
  | [] => None
  | header :: _ => Some header
  end.

Definition tableBody (tableData : list (list string)) : list (list string) :=
  tl tableData.

(** [doc.tables_data && doc.tables_data.length > 0]: whether the section is
    rendered, and the tables in it. *)
Definition renderedTables (doc : Doc)
  : list (option (list string) * list (list string)) :=
  map (fun tableData => (tableHeader tableData, tableBody tableData))
      (tables_data doc).

Definition tablesSectionShown (doc : Doc) : bool :=
  negb (Nat.eqb (length (tables_data doc)) 0).

(** The pairs of a query string under one key. *)
Definition param (key : string) (ps : list (string * string))
  : list (string * string) :=
  filter (fun kv => String.eqb (fst kv) key) ps.

(** ** Semantic search, lines 611-653

    [SearchContent] keeps its own four [useState] cells; the handler never
    looks inside a result, so the type of results is a parameter. *)

Record SearchState (Result : Type) := mkSearchState {
  semanticQuery : string;
  semanticResults : list Result;
  semanticLoading : bool;
  semanticError : option string
}.

Arguments mkSearchState {Result}.
Arguments semanticQuery {Result}.
Arguments semanticResults {Result}.
Arguments semanticLoading {Result}.
Arguments semanticError {Result}.

(** The body of an answer of the search endpoint, as the handler reads it:
    [data.results] and [errorData.error], either of which may be missing. *)
Record SearchJson (Result : Type) := mkSearchJson {
  results : option (list Result);
  search_error : option string
}.

Arguments mkSearchJson {Result}.
Arguments results {Result}.
Arguments search_error {Result}.

Inductive SearchBody (Result : Type) :=
| SearchNotJson (message : string)
| SearchData (data : SearchJson Result).

Arguments SearchNotJson {Result}.
Arguments SearchData {Result}.

Inductive SearchFetch (Result : Type) :=
| SearchRejected (message : string)
| SearchResolved (status : N) (body : SearchBody Result).

Arguments SearchRejected {Result}.
Arguments SearchResolved {Result}.

Inductive SearchEffect :=
| SearchAlerted (message : string)
| SearchConsoleErrored (label detail : string)
| SearchPosted (query : string).   (* POST /api/search/semantic { query } *)

Definition status_ok (status : N) : bool :=
  ((200 <=? status) && (status <=? 299))%N.

(** [a || b] on strings: the empty string is falsy. *)
Definition or_else (a : option string) (b : string) : string :=
  match a with
  | Some m => if String.eqb m EmptyString then b else m
  | None => b
  end.

Definition no_results_text : string :=
  "No matching documents found. Try different search terms.".

Definition search_fallback_text : string :=
  "Failed to perform search. Please try again.".

(** The handler up to its [await]: the effects, the state, and whether a
    request is now in flight. *)
Definition handleSemanticSearch_begin {Result : Type} (s : SearchState Result)
  : SearchState Result * list SearchEffect * bool :=
  if String.eqb (trim (semanticQuery s)) EmptyString
  then (s, [SearchAlerted "Please enter a search query"], false)
  else ({| semanticQuery := semanticQuery s; semanticResults := [];
           semanticLoading := true; semanticError := None |},
        [SearchPosted (semanticQuery s)], true).

(** The [try] block after the [await]: the state it leaves, and the message
    of the error it throws, if any. *)
Definition semanticSearch_try {Result : Type} (r : SearchFetch Result)
  (s : SearchState Result) : SearchState Result * option string :=
  match r with
  | SearchRejected e => (s, Some e)
  | SearchResolved status body =>
      match body with
      | SearchNotJson e => (s, Some e)
      | SearchData data =>
          if negb (status_ok status)
          then (s, Some (or_else (search_error data)
                           ("Search failed: " ++ show_N status)))
          else
            let found := match results data with
                         | Some l => l
                         | None => []
                         end in
            ({| semanticQuery := semanticQuery s; semanticResults := found;
                semanticLoading := semanticLoading s;
                semanticError :=
                  match found with
                  | [] => Some no_results_text
                  | _ => semanticError s
                  end |}, None)
      end
  end.

(** The handler from its [await] on: [try], [catch], [finally]. *)
Definition handleSemanticSearch_resume {Result : Type} (r : SearchFetch Result)
  (s : SearchState Result) : SearchState Result * list SearchEffect :=
  let (s1, thrown) := semanticSearch_try r s in
  match thrown with
  | None =>
      ({| semanticQuery := semanticQuery s1;
          semanticResults := semanticResults s1;
          semanticLoading := false; semanticError := semanticError s1 |}, [])
  | Some e =>
      ({| semanticQuery := semanticQuery s1;
          semanticResults := semanticResults s1;
          semanticLoading := false;
          semanticError := Some (or_else (Some e) search_fallback_text) |},
       [SearchConsoleErrored "Semantic search error:" e])
  end.

(** A search started and answered by [r]; a blank query starts none. *)
Definition semanticSearch {Result : Type} (r : SearchFetch Result)
  (s : SearchState Result) : SearchState Result * list SearchEffect :=
  let '(s1, effects, awaiting) := handleSemanticSearch_begin s in
  if awaiting
  then let (s2, later) := handleSemanticSearch_resume r s1 in
       (s2, effects ++ later)%list
  else (s1, effects).

(** ** Navigation and the remaining handlers *)

(** The one-character string holding a line feed. *)
Definition newline : string := String (Ascii.ascii_of_nat 10) EmptyString.

(** [handleDownloadDocument], lines 250-252. *)
Definition handleDownloadDocument (doc : Doc) : Task unit :=
  perform (Alert ("Downloading: " ++ title doc ++ newline ++ newline ++
                  "This button still needs a backend route to work!")).

(** What a quick action does: it clicks the hidden file input, which opens
    the file dialog of the browser (its [onChange] arrives later, as
    [SelectFiles]), or it runs a task on the state. *)
Inductive QuickOutcome :=
| OpensFilePicker
| Runs (t : Task unit).

(** [handleQuickAction], lines 197-214. *)
Definition handleQuickAction (action : string) : QuickOutcome :=
  if String.eqb action "upload" then OpensFilePicker
  else if String.eqb action "search"
  then Runs (perform (SetActiveTab "search"))
  else if String.eqb action "report"
  then Runs (perform (SetActiveTab "analytics"))
  else if String.eqb action "alert"
  then Runs (perform (Alert
    "Alert feature: Set up notifications for specific document types or departments!"))
  else Runs (Ret tt).

(** The content panes of the main render, lines 1069-1072: each is rendered
    when [activeTab] is its identifier. *)
Inductive Pane :=
| DashboardContent | DocumentsContent | SearchContent | AnalyticsContent.

Definition mainContent (s : State) : list Pane :=
  (if String.eqb (activeTab s) "dashboard" then [DashboardContent] else [])
  ++ (if String.eqb (activeTab s) "documents" then [DocumentsContent] else [])
  ++ (if String.eqb (activeTab s) "search" then [SearchContent] else [])
  ++ (if String.eqb (activeTab s) "analytics" then [AnalyticsContent] else []).

(** The events of the whole component: those of the core, the sidebar and
    the [Search Documents] button ([setActiveTab]), the quick actions of the
    dashboard, and the download button of a row. *)
Inductive UiEvent :=
| Core (e : Event)
| Navigate (tab : string)
| QuickAction (action : string)
| ClickDownload (i : nat).

Definition ui_step (e : UiEvent) (w : World) : World :=
  match e with
  | Core e => step e w
  | Navigate tab => dispatch (perform (SetActiveTab tab)) w
  | QuickAction action =>
      match handleQuickAction action with
      | OpensFilePicker => w
      | Runs t => dispatch t w
      end
  | ClickDownload i => on_row i handleDownloadDocument w
  end.

Definition ui_steps (es : list UiEvent) (w : World) : World :=
  fold_left (fun w e => ui_step e w) es w.

(** ** Which state cells a task writes *)

Inductive Cell :=
| CTab | CFilter | CDocuments | CTotal | CLoading | CError | CViewing.

Definition writes {B : Type} (op : Op B) : option Cell :=
  match op with
  | SetActiveTab _ => Some CTab
  | SetSearchQuery _ => Some CFilter
  | SetSelectedDepartment _ => Some CFilter
  | SetSelectedDocType _ => Some CFilter
  | SetDocuments _ => Some CDocuments
  | SetTotalDocuments _ => Some CTotal
  | SetLoading _ => Some CLoading
  | SetError _ => Some CError
  | SetViewingDocument _ => Some CViewing
  | _ => None
  end.

Definition touches {B : Type} (bad : Cell -> bool) (op : Op B) : bool :=
  match writes op with
  | Some c => bad c
  | None => false
  end.

(** A task avoids the cells [bad]: none of its operations writes one of
    them, up to its first [await] when [deep] is off, throughout when it is
    on. *)
Inductive avoids (deep : bool) (bad : Cell -> bool)
  : forall A : Type, Task A -> Prop :=
| avoids_Ret : forall (A : Type) (a : A), avoids deep bad A (Ret a)
| avoids_Throw : forall (A : Type) (e : string), avoids deep bad A (Throw e)
| avoids_Do : forall (A B : Type) (op : Op B) (k : B -> Task A),
    touches bad op = false ->
    (forall b, avoids deep bad A (k b)) ->
    avoids deep bad A (Do op k)
| avoids_Await : forall (A : Type) (req : Request) (k : FetchResult -> Task A),
    (deep = true -> forall r, avoids deep bad A (k r)) ->
    avoids deep bad A (Await req k)
| avoids_Fork : forall (A : Type) (child : Task unit) (k : Task A),
    avoids deep bad unit child ->
    avoids deep bad A k ->
    avoids deep bad A (Fork child k).

Arguments avoids deep bad {A} t.

(** Two states agree on the cells [bad]. *)
Definition same_on (bad : Cell -> bool) (s1 s2 : State) : Prop :=
  (bad CTab = true -> activeTab s1 = activeTab s2)
  /\ (bad CFilter = true -> deps s1 = deps s2)
  /\ (bad CDocuments = true -> documents s1 = documents s2)
  /\ (bad CTotal = true -> totalDocuments s1 = totalDocuments s2)
  /\ (bad CLoading = true -> loading s1 = loading s2)
  /\ (bad CError = true -> error s1 = error s2)
  /\ (bad CViewing = true -> viewingDocument s1 = viewingDocument s2).

(** The cells no suspended handler and no timer callback ever writes. *)
Definition guarded (c : Cell) : bool :=
  match c with
  | CTab | CFilter | CViewing => true
  | _ => false
  end.

(** The cells of the document store. *)
Definition store (c : Cell) : bool :=
  match c with
  | CDocuments | CTotal => true
  | _ => false
  end.

Definition only (c : Cell) (c' : Cell) : bool :=
  match c, c' with
  | CTab, CTab | CFilter, CFilter | CDocuments, CDocuments | CTotal, CTotal
  | CLoading, CLoading | CError, CError | CViewing, CViewing => true
  | _, _ => false
  end.

(** The invariant of the event loop: the render is committed, every handler
    in flight avoids the guarded cells, and a pending timer calls
    [fetchDocuments] of a render with the current filter vector, no later
    than the debounce delay from now. *)
Definition settled (w : World) : Prop :=
  memoDeps w = deps (state w)
  /\ Forall (fun e => forall r, avoids true guarded (snd e r)) (inflight w)
  /\ match debounceTimer w with
     | None => True
     | Some tm =>
         (due tm <= clock w + debounceDelay)%N
         /\ exists render,
              deps render = deps (state w)
              /\ callback tm = Fork (fetchDocuments render) (Ret tt)
     end.

Definition is_write (e : UiEvent) : bool :=
  match e with
  | Core (Write _ _) => true
  | _ => false
  end.

Definition is_view (e : UiEvent) : bool :=
  match e with
  | Core (ClickView _) | Core (ClickModal _) => true
  | _ => false
  end.

Definition is_respond (e : UiEvent) : bool :=
  match e with
  | Core (Respond _ _) => true
  | _ => false
  end.

Definition is_navigation (e : UiEvent) : bool :=
  match e with
  | Navigate _ | QuickAction _ => true
  | _ => false
  end.

(** The cells an event leaves alone, among the filter vector, the tab, the
    inspection target and the store. *)
Definition frame_of (e : UiEvent) (c : Cell) : bool :=
  match c with
  | CFilter => negb (is_write e)
  | CViewing => negb (is_view e)
  | CTab => negb (is_navigation e)
  | CDocuments | CTotal => negb (is_respond e)
  | _ => false
  end.

(** * Verification *)

(** ** Filter serialisation *)

Lemma eqb_false_iff (a b : string) : String.eqb a b = false <-> a <> b.
Proof.
  destruct (String.eqb_spec a b) as [E | E]; split; intro H;
    congruence || (exfalso; auto).
Qed.

Lemma fetch_params_deps (s1 s2 : State) :
  deps s1 = deps s2 -> fetch_params s1 = fetch_params s2.
Proof.
  unfold deps, fetch_params. intro H. injection H as -> -> ->. reflexivity.
Qed.

(** C6. The request of a refresh carries a parameter for an axis exactly
    when that axis differs from its sentinel (the empty text for the query,
    ["all"] for the department, ["all-types"] for the type); a parameter that
    is present carries the value of its axis, so no sentinel is ever sent. *)
Theorem fetch_params_omit_sentinels (render : State) (w : World) :
  run (fetchDocuments render) w
  = (Suspended (refresh_request render) (resume (fetchDocuments render) w),
     emit (Requested (refresh_request render))
       (with_state (fun s => set_error None (set_loading true s)) w))
  /\ (In "search" (map fst (fetch_params render))
      <-> searchQuery render <> EmptyString)
  /\ (In "department" (map fst (fetch_params render))
      <-> selectedDepartment render <> "all")
  /\ (In "type" (map fst (fetch_params render))
      <-> selectedDocType render <> "all-types")
  /\ Forall (fun kv =>
       kv = ("search", searchQuery render)
         /\ searchQuery render <> EmptyString
       \/ kv = ("department", selectedDepartment render)
         /\ selectedDepartment render <> "all"
       \/ kv = ("type", selectedDocType render)
         /\ selectedDocType render <> "all-types")
     (fetch_params render).
Proof.
  split; [reflexivity|].
  unfold fetch_params.
  destruct (String.eqb_spec (searchQuery render) EmptyString) as [Eq | Nq];
  destruct (String.eqb_spec (selectedDepartment render) "all") as [Ed | Nd];
  destruct (String.eqb_spec (selectedDocType render) "all-types") as [Et | Nt];
  cbn [app map fst In];
  (repeat split;
   [ intros H; repeat (destruct H as [H | H]; try discriminate H); tauto
   | intros H; try congruence; tauto
   | intros H; repeat (destruct H as [H | H]; try discriminate H); tauto
   | intros H; try congruence; tauto
   | intros H; repeat (destruct H as [H | H]; try discriminate H); tauto
   | intros H; try congruence; tauto
   | repeat constructor; tauto ]).
Qed.

(** ** The fetch coordinator *)

(** Rewrite with what is known of [response.ok] and go on. *)
Ltac status_known H :=
  match type of H with
  | negb _ = false => apply negb_false_iff in H
  | negb _ = true => apply negb_true_iff in H
  end;
  rewrite H; cbn.

(** C2 fails as stated.  The refresh for [ab] clears the error when it
    starts; the older refresh, for [a], is answered 503 after that and sets
    the error; the 200 answer to the refresh for [ab] replaces list and
    total and leaves that error standing. *)
Lemma refresh_success_as_stated_fails :
  ~ refresh_success_as_stated world_overlapping_refreshes 0
      {| resp_status := 200; resp_body := Json (DocumentList [doc_d1] 1) |}.
Proof.
  unfold refresh_success_as_stated. intro H.
  specialize (H [doc_d1] 1%Z eq_refl eq_refl eq_refl).
  vm_compute in H. destruct H as (_ & _ & He). discriminate He.
Qed.

(** C2, amended.  When a refresh is answered with a 2xx response carrying a
    document list, the store holds exactly that list, in the order given,
    and exactly that total, whatever it held when the response arrived; the
    handler leaves the loading flag off and sets no error, so the error
    state after the response is the one found when it arrived; the error
    was cleared when the refresh started, before its request, so a refresh
    answered with nothing in between ends with no error. *)
Theorem refresh_success_replaces_store
  (render : State) (w w' : World) (r : Response) (docs : list Doc) (total : Z) :
  ok r = true ->
  resp_body r = Json (DocumentList docs total) ->
  let arrived := run (resume (fetchDocuments render) w (Resolved r)) w' in
  let atonce := complete (fetchDocuments render) (Resolved r) w in
  fst arrived = Returned tt
  /\ documents (state (snd arrived)) = docs
  /\ totalDocuments (state (snd arrived)) = total
  /\ loading (state (snd arrived)) = false
  /\ error (state (snd arrived)) = error (state w')
  /\ error (state (snd (run (fetchDocuments render) w))) = None
  /\ documents (state (snd atonce)) = docs
  /\ totalDocuments (state (snd atonce)) = total
  /\ error (state (snd atonce)) = None.
Proof.
  intros Hok Hbody. unfold complete, resume. cbn.
  rewrite Hok. cbn. unfold json. rewrite Hbody. cbn.
  repeat split.
Qed.

Lemma refresh_success_replaces_store_witness :
  let w := with_state (set_error (Some "stale")) (world_two_docs true) in
  let r := {| resp_status := 200;
              resp_body := Json (DocumentList [doc_d2] 7) |} in
  documents (state (snd (complete (fetchDocuments (state w)) (Resolved r) w)))
  = [doc_d2]
  /\ totalDocuments
       (state (snd (complete (fetchDocuments (state w)) (Resolved r) w))) = 7%Z
  /\ error (state (snd (complete (fetchDocuments (state w)) (Resolved r) w)))
     = None.
Proof.
  intros w r.
  pose proof (refresh_success_replaces_store (state w) w w r [doc_d2] 7
                eq_refl eq_refl) as H.
  cbv zeta in H.
  destruct H as (_ & _ & _ & _ & _ & _ & Hd & Ht & He).
  exact (conj Hd (conj Ht He)).
Defined.

(** C5. When a refresh fails (the promise rejects, or the status is not
    2xx), the error state holds the user-visible message, the list is
    emptied, and the total keeps the value it had when the failure arrived. *)
Theorem refresh_failure_empties_items_keeps_total
  (render : State) (w w' : World) (r : FetchResult) :
  failed r = true ->
  let arrived := run (resume (fetchDocuments render) w r) w' in
  fst arrived = Returned tt
  /\ error (state (snd arrived)) = Some refresh_error
  /\ documents (state (snd arrived)) = []
  /\ totalDocuments (state (snd arrived)) = totalDocuments (state w')
  /\ loading (state (snd arrived)) = false
  /\ totalDocuments (state (snd (complete (fetchDocuments render) r w)))
     = totalDocuments (state w).
Proof.
  intros Hf. unfold complete, resume. cbn.
  destruct r as [msg | resp]; cbn.
  - repeat split.
  - cbn in Hf. status_known Hf. repeat split.
Qed.

Lemma refresh_failure_empties_items_keeps_total_witness :
  let w := world_two_docs true in
  let r := Resolved {| resp_status := 503; resp_body := NotJson "down" |} in
  let arrived := run (resume (fetchDocuments (state w)) w r) w in
  error (state (snd arrived)) = Some refresh_error
  /\ documents (state (snd arrived)) = []
  /\ totalDocuments (state (snd arrived)) = 2%Z.
Proof.
  intros w r arrived.
  pose proof (refresh_failure_empties_items_keeps_total (state w) w w r
                eq_refl) as H.
  cbv zeta in H.
  destruct H as (_ & He & Hd & Ht & _).
  exact (conj He (conj Hd Ht)).
Defined.

(** ** The mutation handlers *)

Lemma without_absent (docId : string) (docs : list Doc) :
  ~ In docId (map _id (without docId docs)).
Proof.
  unfold without. intro H. apply in_map_iff in H.
  destruct H as (doc & Hid & Hin). apply filter_In in Hin.
  destruct Hin as [_ Hneq]. rewrite Hid, String.eqb_refl in Hneq.
  discriminate Hneq.
Qed.

Lemma double_round_exact (z : Z) :
  (Z.abs z <= 2 ^ 53)%Z -> double_round z = z.
Proof.
  intro H. unfold double_round. apply Z.leb_le in H. now rewrite H.
Qed.

(** C3 fails as stated.  The server reports the total 9007199254740994;
    the confirmed delete of the first row computes [prev - 1] on doubles,
    and 9007199254740993 is no double: the total becomes 9007199254740992,
    two less. *)
Lemma delete_as_stated_fails :
  ~ delete_as_stated world_huge_total 0
      (Resolved {| resp_status := 200; resp_body := Json EmptyObject |}).
Proof.
  unfold delete_as_stated. intro H. specialize (H doc_d1 eq_refl).
  vm_compute in H. destruct H as (_ & _ & Ht). discriminate Ht.
Qed.

(** C3, amended.  [handleDeleteDocument] first asks the user.  If the user
    declines, the handler returns: no request is issued and nothing but the
    record of the dialog changes.  If the user accepts, the DELETE request
    is issued after the dialog.  When it succeeds, the list becomes the
    rendered list without the records of that identifier, so the identifier
    is absent, and the total becomes [prev - 1] as doubles compute it: one
    less whenever the total lies in the range where doubles hold every
    integer (above -2^53 and at most 2^53), the nearest double otherwise.
    When it fails, the state is untouched and the error message is shown in
    an alert. *)
Theorem delete_confirmed_and_applied
  (render : State) (w w' : World) (docId : string) (r : FetchResult) :
  let t := handleDeleteDocument render docId in
  let arrived := run (resume t w r) w' in
  (confirmAnswer w delete_prompt = false ->
   run t w = (Returned tt, emit (Confirmed delete_prompt false) w))
  /\ (confirmAnswer w delete_prompt = true ->
      run t w = (Suspended (delete_request docId) (resume t w),
                 emit (Requested (delete_request docId))
                   (emit (Confirmed delete_prompt true) w))
      /\ (failed r = false ->
          fst arrived = Returned tt
          /\ documents (state (snd arrived)) = without docId (documents render)
          /\ ~ In docId (map _id (documents (state (snd arrived))))
          /\ totalDocuments (state (snd arrived))
             = double_round (totalDocuments (state w') - 1)
          /\ ((- 2 ^ 53 < totalDocuments (state w') <= 2 ^ 53)%Z ->
              totalDocuments (state (snd arrived))
              = (totalDocuments (state w') - 1)%Z)
          /\ log (snd arrived)
             = (log w'
                ++ [(clock w', Alerted "Document deleted successfully.")])%list)
      /\ (failed r = true ->
          fst arrived = Returned tt
          /\ state (snd arrived) = state w'
          /\ inflight (snd arrived) = inflight w'
          /\ log (snd arrived)
             = (log w'
                ++ [(clock w',
                     ConsoleErrored "Error deleting document:"
                       (failure_message "Failed to delete the document." r));
                    (clock w',
                     Alerted
                       (failure_message "Failed to delete the document." r))])
               %list)).
Proof.
  cbv zeta. unfold resume, delete_prompt. split.
  - intro Hc. cbn. rewrite Hc. reflexivity.
  - intro Hc. cbn. rewrite Hc. cbn. split; [reflexivity|].
    destruct r as [msg | resp]; cbn.
    + split; [discriminate|]. intros _. cbn.
      repeat split. now rewrite <- app_assoc.
    + split; intro Hf.
      * status_known Hf.
        split; [reflexivity|]. split; [reflexivity|].
        split; [apply without_absent|]. split; [reflexivity|].
        split; [|reflexivity].
        intro Hsafe. unfold minus_one. apply double_round_exact. lia.
      * status_known Hf.
        repeat split. now rewrite <- app_assoc.
Qed.

Lemma delete_confirmed_and_applied_witness :
  let declining := world_two_docs false in
  let accepting := world_two_docs true in
  let answer := Resolved {| resp_status := 204; resp_body := NotJson "no body" |} in
  let t := handleDeleteDocument (state accepting) "d1" in
  run (handleDeleteDocument (state declining) "d1") declining
  = (Returned tt, emit (Confirmed delete_prompt false) declining)
  /\ documents (state (snd (complete t answer accepting))) = [doc_d2]
  /\ totalDocuments (state (snd (complete t answer accepting))) = 1%Z
  /\ state (snd (complete t (Rejected "offline") accepting)) = state accepting.
Proof.
  intros declining accepting answer t.
  destruct (delete_confirmed_and_applied (state declining) declining declining
              "d1" answer) as [Hno _].
  destruct (delete_confirmed_and_applied (state accepting) accepting
              (snd (run t accepting)) "d1" answer) as [_ Hyes].
  destruct (delete_confirmed_and_applied (state accepting) accepting
              (snd (run t accepting)) "d1" (Rejected "offline")) as [_ Hfail].
  destruct (Hyes eq_refl) as (_ & Hok & _).
  destruct (Hok eq_refl) as (_ & Hd & _ & _ & Ht & _).
  destruct (Hfail eq_refl) as (_ & _ & Hko).
  destruct (Hko eq_refl) as (_ & Hs & _).
  assert (Hsafe : (- 2 ^ 53 < 2 <= 2 ^ 53)%Z)
    by (split; [reflexivity | discriminate]).
  exact (conj (Hno eq_refl) (conj Hd (conj (Ht Hsafe) Hs))).
Defined.

Lemma restar_lookup (docToUpdate : Doc) (docs : list Doc) (i : nat) :
  nth_error (restar docToUpdate docs) i
  = option_map
      (fun doc => if String.eqb (_id doc) (_id docToUpdate)
                  then spread_starred doc (negb (starred docToUpdate))
                  else doc)
      (nth_error docs i).
Proof. unfold restar. apply nth_error_map. Qed.

Lemma restar_pointwise (docToUpdate : Doc) (docs : list Doc) :
  Forall2 (starred_by docToUpdate) docs (restar docToUpdate docs).
Proof.
  induction docs as [| doc docs IH]; cbn; constructor; [|exact IH].
  unfold starred_by, same_but_starred.
  destruct (String.eqb (_id doc) (_id docToUpdate)); cbn; repeat split.
Qed.

(** C4. [handleStarDocument] sends the inversion of the flag of the record
    it is given and changes no state on its way to the request.  When the
    PUT succeeds, the records of that identifier in the current list get the
    new flag, the record itself included: their starred flag is the
    inversion of the flag of the given record, every other field and every
    other record is as it was, and nothing else in the state changes.  When
    it fails, the state is untouched and the error message is shown in an
    alert. *)
Theorem star_applied_only_after_confirmation
  (w w' : World) (docToUpdate : Doc) (r : FetchResult) :
  let t := handleStarDocument docToUpdate in
  let arrived := run (resume t w r) w' in
  run t w = (Suspended (star_request docToUpdate) (resume t w),
             emit (Requested (star_request docToUpdate)) w)
  /\ body (star_request docToUpdate)
     = StarredJson (negb (starred docToUpdate))
  /\ state (snd (run t w)) = state w
  /\ (failed r = false ->
      fst arrived = Returned tt
      /\ state (snd arrived)
         = set_documents (restar docToUpdate) (state w')
      /\ (In docToUpdate (documents (state w')) ->
          In (spread_starred docToUpdate (negb (starred docToUpdate)))
             (documents (state (snd arrived))))
      /\ Forall2 (starred_by docToUpdate)
           (documents (state w')) (documents (state (snd arrived)))
      /\ starred (spread_starred docToUpdate (negb (starred docToUpdate)))
         = negb (starred docToUpdate))
  /\ (failed r = true ->
      fst arrived = Returned tt
      /\ state (snd arrived) = state w'
      /\ log (snd arrived)
         = (log w'
            ++ [(clock w',
                 ConsoleErrored "Error starring document:"
                   (failure_message "Failed to update document." r));
                (clock w',
                 Alerted (failure_message "Failed to update document." r))])
           %list).
Proof.
  cbv zeta. unfold resume. cbn.
  split; [reflexivity|]. split; [reflexivity|]. split; [reflexivity|].
  destruct r as [msg | resp]; cbn.
  - split; [discriminate|]. intros _.
    repeat split. now rewrite <- app_assoc.
  - split; intro Hf.
    + status_known Hf.
      split; [reflexivity|]. split; [reflexivity|].
      split; [|split; [apply restar_pointwise|reflexivity]].
      intro Hin. apply in_map_iff. exists docToUpdate.
      now rewrite String.eqb_refl.
    + status_known Hf.
      repeat split. now rewrite <- app_assoc.
Qed.

Lemma star_applied_only_after_confirmation_witness :
  let w := world_two_docs true in
  let t := handleStarDocument doc_d1 in
  let answer := Resolved {| resp_status := 200; resp_body := Json EmptyObject |} in
  map starred (documents (state (snd (run t w)))) = [true; false]
  /\ map starred (documents (state (snd (complete t answer w))))
     = [false; false]
  /\ map _id (documents (state (snd (complete t answer w)))) = ["d1"; "d2"]
  /\ documents (state (snd (complete t (Rejected "offline") w)))
     = [doc_d1; doc_d2].
Proof.
  intros w t answer.
  destruct (star_applied_only_after_confirmation w (snd (run t w)) doc_d1
              answer) as (_ & _ & Hs & Hok & _).
  destruct (star_applied_only_after_confirmation w (snd (run t w)) doc_d1
              (Rejected "offline")) as (_ & _ & _ & _ & Hko).
  destruct (Hok eq_refl) as (_ & Hd & _).
  destruct (Hko eq_refl) as (_ & Hu & _).
  split; [exact (f_equal (fun s => map starred (documents s)) Hs)|].
  split; [exact (f_equal (fun s => map starred (documents s)) Hd)|].
  split; [exact (f_equal (fun s => map _id (documents s)) Hd)|].
  exact (f_equal documents Hu).
Defined.

(** ** Events on the mounted component *)

Lemma state_commit (w : World) : state (commit w) = state w.
Proof. unfold commit. now destruct deps_eqb. Qed.

Lemma inflight_commit (w : World) : inflight (commit w) = inflight w.
Proof. unfold commit. now destruct deps_eqb. Qed.

Lemma log_commit (w : World) : log (commit w) = log w.
Proof. unfold commit. now destruct deps_eqb. Qed.

Lemma fileInput_commit (w : World) : fileInput (commit w) = fileInput w.
Proof. unfold commit. now destruct deps_eqb. Qed.

Lemma nth_error_snoc {A : Type} (l : list A) (x : A) :
  nth_error (l ++ [x]) (length l) = Some x.
Proof. induction l as [| y l IH]; [reflexivity | exact IH]. Qed.

Lemma remove_nth_snoc {A : Type} (l : list A) (x : A) :
  remove_nth (length l) (l ++ [x]) = l.
Proof. induction l as [| y l IH]; [reflexivity | cbn; now rewrite IH]. Qed.

Lemma spread_starred_id (doc : Doc) : spread_starred doc (starred doc) = doc.
Proof. now destruct doc. Qed.

Lemma spread_starred_twice (doc : Doc) (a b : bool) :
  spread_starred (spread_starred doc a) b = spread_starred doc b.
Proof. reflexivity. Qed.

(** Clicking the star of row [i] suspends the handler on its request and
    leaves the state alone. *)
Lemma click_star (w : World) (i : nat) (doc : Doc) :
  nth_error (documents (state w)) i = Some doc ->
  state (step (ClickStar i) w) = state w
  /\ inflight (step (ClickStar i) w)
     = (inflight w
        ++ [(star_request doc, resume (handleStarDocument doc) w)])%list.
Proof.
  intro Hi. cbn. unfold on_row. rewrite Hi. unfold dispatch. cbn.
  now rewrite state_commit, inflight_commit.
Qed.

(** The confirmation of the newest request in flight, a star request,
    applies the flag. *)
Lemma respond_star (w : World) (doc : Doc) (w0 : World) (r : FetchResult)
      (rest : list (Request * (FetchResult -> Task unit))) :
  inflight w
  = (rest ++ [(star_request doc, resume (handleStarDocument doc) w0)])%list ->
  failed r = false ->
  state (step (Respond (length rest) r) w)
  = set_documents (restar doc) (state w)
  /\ inflight (step (Respond (length rest) r) w) = rest.
Proof.
  intros Hfl Hf. cbn. unfold respond. rewrite Hfl, nth_error_snoc.
  rewrite remove_nth_snoc. unfold dispatch, resume. cbn.
  destruct r as [msg | resp]; [discriminate|].
  cbn in Hf. apply negb_false_iff in Hf. cbn. rewrite Hf. cbn.
  now rewrite state_commit, inflight_commit.
Qed.

Lemma same_id_same_doc (docs : list Doc) (a b : Doc) :
  NoDup (map _id docs) -> In a docs -> In b docs -> _id a = _id b -> a = b.
Proof.
  induction docs as [| d docs IH]; intros Hnd Ha Hb Hid; [contradiction|].
  cbn in Hnd. inversion Hnd as [| ? ? Hnotin Hnd']; subst.
  destruct Ha as [-> | Ha]; destruct Hb as [-> | Hb].
  - reflexivity.
  - exfalso. apply Hnotin. rewrite Hid. now apply in_map.
  - exfalso. apply Hnotin. rewrite <- Hid. now apply in_map.
  - now apply IH.
Qed.

(** C8. Starring row [i] and, once that is confirmed, starring it again and
    having that confirmed, gives the record of row [i] back as it was: the
    second click inverts the flag the first confirmation wrote.  No click
    changes the list before its confirmation.  When identifiers are unique
    the whole list is as before. *)
Theorem star_twice_restores_flag
  (w : World) (i : nat) (doc : Doc) (r1 r2 : FetchResult) :
  nth_error (documents (state w)) i = Some doc ->
  failed r1 = false ->
  failed r2 = false ->
  let w1 := step (ClickStar i) w in
  let w2 := step (Respond (length (inflight w)) r1) w1 in
  let w3 := step (ClickStar i) w2 in
  let w4 := step (Respond (length (inflight w2)) r2) w3 in
  documents (state w1) = documents (state w)
  /\ nth_error (documents (state w2)) i
     = Some (spread_starred doc (negb (starred doc)))
  /\ documents (state w3) = documents (state w2)
  /\ nth_error (documents (state w4)) i = Some doc
  /\ (NoDup (map _id (documents (state w))) ->
      documents (state w4) = documents (state w)).
Proof.
  intros Hi Hf1 Hf2 w1 w2 w3 w4.
  destruct (click_star w i doc Hi) as [Hs1 Hfl1]. fold w1 in Hs1, Hfl1.
  destruct (respond_star w1 doc w r1 (inflight w) Hfl1 Hf1) as [Hs2 Hfl2].
  fold w2 in Hs2, Hfl2.
  assert (Hi2 : nth_error (documents (state w2)) i
                = Some (spread_starred doc (negb (starred doc)))).
  { rewrite Hs2, Hs1. cbn. rewrite restar_lookup, Hi. cbn.
    now rewrite String.eqb_refl. }
  destruct (click_star w2 i _ Hi2) as [Hs3 Hfl3]. fold w3 in Hs3, Hfl3.
  destruct (respond_star w3 _ w2 r2 (inflight w2) Hfl3 Hf2) as [Hs4 _].
  fold w4 in Hs4.
  assert (Hd4 : documents (state w4)
                = restar (spread_starred doc (negb (starred doc)))
                    (restar doc (documents (state w)))).
  { rewrite Hs4, Hs3, Hs2, Hs1. reflexivity. }
  split; [now rewrite Hs1|]. split; [exact Hi2|].
  split; [now rewrite Hs3|]. split.
  - rewrite Hd4, !restar_lookup, Hi. cbn.
    rewrite !String.eqb_refl. cbn. rewrite ?String.eqb_refl.
    cbn. rewrite negb_involutive. f_equal. exact (spread_starred_id doc).
  - intro Hnd. rewrite Hd4. unfold restar. rewrite map_map.
    rewrite <- (map_id (documents (state w))) at 2.
    apply map_ext_in. intros d Hd. cbn.
    destruct (String.eqb_spec (_id d) (_id doc)) as [E | E]; cbn.
    + rewrite E, String.eqb_refl, negb_involutive.
      assert (d = doc) as ->.
      { apply (same_id_same_doc (documents (state w))); auto.
        eapply nth_error_In; eauto. }
      exact (spread_starred_id doc).
    + destruct (String.eqb_spec (_id d) (_id doc)); [contradiction|].
      reflexivity.
Qed.

Lemma star_twice_restores_flag_witness :
  let w := world_two_docs true in
  let confirmed :=
    Resolved {| resp_status := 200; resp_body := Json EmptyObject |} in
  starred doc_d1 = true
  /\ documents (state (steps [ClickStar 0; Respond 0 confirmed] w))
     = [spread_starred doc_d1 false; doc_d2]
  /\ documents (state (steps [ClickStar 0; Respond 0 confirmed;
                              ClickStar 0; Respond 0 confirmed] w))
     = [doc_d1; doc_d2].
Proof.
  intros w confirmed.
  destruct (star_twice_restores_flag w 0 doc_d1 confirmed confirmed
              eq_refl eq_refl eq_refl) as (_ & _ & _ & _ & Hall).
  split; [reflexivity|]. split; [reflexivity|].
  apply Hall. cbn.
  repeat constructor; cbn; intuition discriminate.
Defined.

Lemma click_view (w : World) (i : nat) (doc : Doc) :
  nth_error (documents (state w)) i = Some doc ->
  state (step (ClickView i) w) = set_viewingDocument (Some doc) (state w)
  /\ log (step (ClickView i) w) = log w
  /\ inflight (step (ClickView i) w) = inflight w.
Proof.
  intro Hi. cbn. unfold on_row. rewrite Hi. unfold dispatch. cbn.
  now rewrite state_commit, log_commit, inflight_commit.
Qed.

Lemma click_modal (w : World) (doc : Doc) (target : ModalTarget) :
  viewingDocument (state w) = Some doc ->
  state (step (ClickModal target) w)
  = (if closes target then set_viewingDocument None (state w) else state w)
  /\ log (step (ClickModal target) w) = log w
  /\ inflight (step (ClickModal target) w) = inflight w.
Proof.
  intro Hv. cbn. unfold modal_click, dispatch. rewrite Hv.
  destruct target; cbn;
    now rewrite state_commit, log_commit, inflight_commit.
Qed.

(** C9. Opening the detail view on a listed record and then clicking the
    modal (a close button or the backdrop close it, the panel does not)
    leaves the list and the total as they were; no effect is logged and no
    request is issued: only the inspection target changes, to the record on
    opening and to nothing on closing. *)
Theorem detail_view_is_pure_read
  (w : World) (i : nat) (doc : Doc) (target : ModalTarget) :
  nth_error (documents (state w)) i = Some doc ->
  let opened := step (ClickView i) w in
  let clicked := step (ClickModal target) opened in
  state opened = set_viewingDocument (Some doc) (state w)
  /\ state clicked
     = set_viewingDocument (if closes target then None else Some doc) (state w)
  /\ documents (state clicked) = documents (state w)
  /\ totalDocuments (state clicked) = totalDocuments (state w)
  /\ log clicked = log w
  /\ inflight clicked = inflight w.
Proof.
  intros Hi opened clicked.
  destruct (click_view w i doc Hi) as (Hso & Hlo & Hfo).
  fold opened in Hso, Hlo, Hfo.
  assert (Hv : viewingDocument (state opened) = Some doc)
    by now rewrite Hso.
  destruct (click_modal opened doc target Hv) as (Hsc & Hlc & Hfc).
  fold clicked in Hsc, Hlc, Hfc.
  assert (Hs : state clicked
               = set_viewingDocument
                   (if closes target then None else Some doc) (state w)).
  { rewrite Hsc, Hso. now destruct (closes target). }
  split; [exact Hso|]. split; [exact Hs|].
  rewrite Hs, Hlc, Hfc, Hlo, Hfo. repeat split.
Qed.

Lemma detail_view_is_pure_read_witness :
  let w := world_two_docs true in
  state (steps [ClickView 1; ClickModal Backdrop] w) = state w
  /\ viewingDocument (state (steps [ClickView 1] w)) = Some doc_d2
  /\ log (steps [ClickView 1; ClickModal Backdrop] w) = log w.
Proof.
  intro w.
  destruct (detail_view_is_pure_read w 1 doc_d2 Backdrop eq_refl)
    as (Ho & Hc & _ & _ & Hl & _).
  split; [exact Hc|]. split; [exact (f_equal viewingDocument Ho)|exact Hl].
Defined.

(** ** The upload pipeline *)

Lemma deps_eqb_refl (d : string * string * string) : deps_eqb d d = true.
Proof. destruct d as [[q o] c]. cbn. now rewrite !String.eqb_refl. Qed.

Lemma commit_committed (w : World) :
  memoDeps w = deps (state w) -> commit w = w.
Proof. intro H. unfold commit. now rewrite H, deps_eqb_refl. Qed.

(** C10. With no file selected, [handleFileUpload] returns at once: the
    world after it is the world before it, so no request is issued and the
    loading flag, the error, the store and the file control are unchanged;
    the same holds of the whole event on a committed render. *)
Theorem upload_without_file_is_noop (render : State) (w : World) :
  fileInput w = [] ->
  run (handleFileUpload render) w = (Returned tt, w)
  /\ (memoDeps w = deps (state w) -> step (SelectFiles []) w = w).
Proof.
  intro Hf. split.
  - cbn. now rewrite Hf.
  - intro Hm. cbn. unfold dispatch. cbn.
    assert (Hw : with_fileInput [] w = w).
    { destruct w; cbn in *. now subst. }
    rewrite Hw. now apply commit_committed.
Qed.

Lemma upload_without_file_is_noop_witness :
  let w := world_two_docs true in
  run (handleFileUpload (state w)) w = (Returned tt, w)
  /\ step (SelectFiles []) w = w.
Proof.
  intro w.
  destruct (upload_without_file_is_noop (state w) w eq_refl) as [Hr Hs].
  exact (conj Hr (Hs eq_refl)).
Defined.

(** C7 fails as stated, twice.  A filter written while the upload is in
    flight is not in the refresh that follows the upload: [fetchDocuments]
    is the one of the render in which the file was chosen.  And when the
    request itself is rejected, the alert carries the message of the
    rejection, which is neither a text of the server nor the generic one. *)
Lemma upload_as_stated_fails :
  ~ upload_as_stated (world_two_docs true) [{| file_name := "report.pdf" |}]
      [Write Query "safety"]
      (Resolved {| resp_status := 201;
                   resp_body := Json (NewDocument doc_q3) |})
  /\ ~ upload_as_stated (world_two_docs true) [{| file_name := "report.pdf" |}]
         [] (Rejected "Failed to fetch").
Proof.
  split; unfold upload_as_stated; intro H; cbv zeta in H;
    destruct H as [_ H]; vm_compute in H.
  - discriminate H.
  - intuition discriminate.
Qed.

(** C7, amended.  [handleFileUpload] with a selected file posts it.  When
    the answer is a 2xx response with the new document, the user is alerted
    with the title the server reported and [fetchDocuments] of the render in
    which the file was chosen is started, whatever the document is: its
    request carries the filter vector of that render, which is the current
    one when no filter was written meanwhile (the handler itself never
    writes it).  When the [try] block throws, the alert and the error state
    carry the message of the error after the prefix of the handler: for a
    non-2xx response with a JSON body that message is the server's [error]
    text, or the generic text when the body has none or an empty one; for a
    rejected request or a body that is not JSON it is the message of the
    rejection or of the parser.  Whatever the answer, the handler ends with
    the loading flag off and the file control cleared. *)
Theorem upload_outcomes
  (render : State) (w w' : World) (file : File) (rest : list File)
  (r : FetchResult) (resp : Response) :
  fileInput w = file :: rest ->
  let t := handleFileUpload render in
  let arrived := run (resume t w (Resolved resp)) w' in
  let ended := run (resume t w r) w' in
  run t w = (Suspended (upload_request file) (resume t w),
             emit (Requested (upload_request file))
               (with_state (fun s => set_error None (set_loading true s)) w))
  /\ (forall newDocument,
        ok resp = true ->
        resp_body resp = Json (NewDocument newDocument) ->
        fst arrived = Returned tt
        /\ log (snd arrived)
           = (log w'
              ++ [(clock w', Alerted (upload_success_text newDocument));
                  (clock w', Requested (refresh_request render))])%list
        /\ inflight (snd arrived)
           = (inflight w'
              ++ [(refresh_request render,
                   resume (fetchDocuments render) w')])%list
        /\ deps (state (snd arrived)) = deps (state w')
        /\ documents (state (snd arrived)) = documents (state w')
        /\ totalDocuments (state (snd arrived)) = totalDocuments (state w')
        /\ (deps (state w') = deps render ->
            refresh_request render = refresh_request (state (snd arrived))))
  /\ (forall errData,
        ok resp = false ->
        resp_body resp = Json errData ->
        fst arrived = Returned tt
        /\ log (snd arrived)
           = (log w'
              ++ [(clock w',
                   ConsoleErrored "Error uploading file:"
                     (upload_error_of errData));
                  (clock w',
                   Alerted (upload_failure_text (upload_error_of errData)))])
             %list
        /\ error (state (snd arrived))
           = Some (upload_failure_text (upload_error_of errData))
        /\ inflight (snd arrived) = inflight w')
  /\ (forall message,
        message <> EmptyString ->
        upload_error_of (ErrorBody (Some message)) = message)
  /\ upload_error_of (ErrorBody None) = upload_generic_failure
  /\ fst ended = Returned tt
  /\ fileInput (snd ended) = []
  /\ loading (state (snd ended)) = false
  /\ (forall thrown,
        upload_thrown r = Some thrown ->
        log (snd ended)
        = (log w'
           ++ [(clock w', ConsoleErrored "Error uploading file:" thrown);
               (clock w', Alerted (upload_failure_text thrown))])%list
        /\ error (state (snd ended)) = Some (upload_failure_text thrown)
        /\ inflight (snd ended) = inflight w'
        /\ documents (state (snd ended)) = documents (state w')
        /\ totalDocuments (state (snd ended)) = totalDocuments (state w'))
  /\ (upload_thrown r = None ->
      exists shown,
        log (snd ended)
        = (log w'
           ++ [(clock w',
                Alerted ("Successfully uploaded and processed: " ++ shown));
               (clock w', Requested (refresh_request render))])%list
        /\ error (state (snd ended)) = None).
Proof.
  intros Hfile. cbv zeta. unfold resume. cbn. rewrite Hfile. cbn.
  split; [reflexivity|].
  split; [|split; [|split; [|split; [|split; [|split; [|split; [|split]]]]]]].
  - intros newDocument Hok Hbody. rewrite Hok. cbn.
    unfold json. rewrite Hbody. cbn.
    split; [reflexivity|]. split; [now rewrite <- app_assoc|].
    split; [reflexivity|]. split; [reflexivity|].
    split; [reflexivity|]. split; [reflexivity|].
    intro Hd. unfold refresh_request. f_equal.
    apply fetch_params_deps. unfold deps in *. cbn. now symmetry.
  - intros errData Hok Hbody. rewrite Hok. cbn.
    unfold json. rewrite Hbody. cbn.
    split; [reflexivity|]. split; [now rewrite <- app_assoc|].
    split; reflexivity.
  - intros message Hm. cbn. apply eqb_false_iff in Hm. now rewrite Hm.
  - reflexivity.
  - destruct r as [msg | resp']; cbn; [reflexivity|].
    destruct (ok resp'); cbn; unfold json;
      destruct (resp_body resp') as [e | data]; cbn; try reflexivity;
      destruct data; reflexivity.
  - destruct r as [msg | resp']; cbn; [reflexivity|].
    destruct (ok resp'); cbn; unfold json;
      destruct (resp_body resp') as [e | data]; cbn; try reflexivity;
      destruct data; reflexivity.
  - destruct r as [msg | resp']; cbn; [reflexivity|].
    destruct (ok resp'); cbn; unfold json;
      destruct (resp_body resp') as [e | data]; cbn; try reflexivity;
      destruct data; reflexivity.
  - intros thrown Hth. unfold upload_thrown in Hth.
    destruct r as [msg | resp']; cbn.
    + injection Hth as <-. repeat split. now rewrite <- app_assoc.
    + unfold json. destruct (resp_body resp') as [e | data].
      * injection Hth as <-. destruct (ok resp'); cbn;
          repeat split; now rewrite <- app_assoc.
      * destruct (ok resp'); [discriminate Hth|]. injection Hth as <-.
        cbn. repeat split. now rewrite <- app_assoc.
  - intro Hth. unfold upload_thrown in Hth.
    destruct r as [msg | resp']; [discriminate Hth|]. cbn.
    unfold json. destruct (resp_body resp') as [e | data];
      [discriminate Hth|].
    destruct (ok resp'); [|discriminate Hth]. cbn.
    eexists. split; [now rewrite <- app_assoc|reflexivity].
Qed.

Lemma upload_outcomes_witness :
  let w := world_with_file in
  let t := handleFileUpload (state w) in
  let created :=
    Resolved {| resp_status := 201; resp_body := Json (NewDocument doc_q3) |} in
  let refused :=
    Resolved {| resp_status := 400;
                resp_body := Json (ErrorBody (Some "Unsupported file type")) |} in
  log (snd (complete t created w))
  = (log (snd (run t w))
     ++ [(1000%N, Alerted "Successfully uploaded and processed: Q3 Report");
         (1000%N, Requested (refresh_request (state w)))])%list
  /\ error (state (snd (complete t refused w)))
     = Some "File upload failed: Unsupported file type"
  /\ fileInput (snd (complete t created w)) = []
  /\ fileInput (snd (complete t refused w)) = []
  /\ error (state (snd (complete t (Rejected "Failed to fetch") w)))
     = Some "File upload failed: Failed to fetch".
Proof.
  intros w t created refused.
  destruct (upload_outcomes (state w) w (snd (run t w))
              {| file_name := "report.pdf" |} [] created
              {| resp_status := 201; resp_body := Json (NewDocument doc_q3) |}
              eq_refl) as (_ & Hok & _ & _ & _ & _ & Hc1 & _).
  destruct (upload_outcomes (state w) w (snd (run t w))
              {| file_name := "report.pdf" |} [] refused
              {| resp_status := 400;
                 resp_body := Json (ErrorBody (Some "Unsupported file type")) |}
              eq_refl) as (_ & _ & Hko & _ & _ & _ & Hc2 & _).
  destruct (upload_outcomes (state w) w (snd (run t w))
              {| file_name := "report.pdf" |} [] (Rejected "Failed to fetch")
              {| resp_status := 201; resp_body := Json (NewDocument doc_q3) |}
              eq_refl) as (_ & _ & _ & _ & _ & _ & _ & _ & Hth & _).
  destruct (Hok doc_q3 eq_refl eq_refl) as (_ & Hlog & _).
  destruct (Hko _ eq_refl eq_refl) as (_ & _ & Herr & _).
  destruct (Hth _ eq_refl) as (_ & Hrej & _).
  exact (conj Hlog (conj Herr (conj Hc1 (conj Hc2 Hrej)))).
Defined.

(** ** The debounce controller *)

(** C1 fails as stated.  The second click on the tag [safety], 300 ms after
    the first, writes the value the query already has: no effect runs, the
    timer set by the first click stays, and the refresh fires 200 ms after
    the last write, not 500 ms. *)
Lemma debounce_as_stated_fails :
  ~ debounce_as_stated (world_two_docs true) Query "safety"
      [(300%N, (Query, "safety"))].
Proof.
  unfold debounce_as_stated. intro H. specialize (H eq_refl).
  vm_compute in H. discriminate H.
Qed.

Lemma deps_set_axis_same (a : Axis) (v : string) (s : State) :
  changes a v s = false -> deps (set_axis a v s) = deps s.
Proof.
  unfold changes, deps. intro H. apply negb_false_iff in H.
  destruct a; cbn in *;
    repeat rewrite String.eqb_refl in H; cbn in H;
    rewrite ?andb_true_r in H;
    apply String.eqb_eq in H; now rewrite H.
Qed.

Lemma deps_eqb_eq (d1 d2 : string * string * string) :
  deps_eqb d1 d2 = true -> d1 = d2.
Proof.
  destruct d1 as [[q1 o1] c1], d2 as [[q2 o2] c2]. cbn. intro H.
  apply andb_true_iff in H. destruct H as [H Hc].
  apply andb_true_iff in H. destruct H as [Hq Ho].
  apply String.eqb_eq in Hq, Ho, Hc. now subst.
Qed.

Lemma run_setAxis (a : Axis) (v : string) (w : World) :
  run (setAxis a v) w = (Returned tt, with_state (set_axis a v) w).
Proof. now destruct a. Qed.

(** A write that changes the vector replaces the timer. *)
Lemma write_changing (w : World) (a : Axis) (v : string) :
  memoDeps w = deps (state w) ->
  changes a v (state w) = true ->
  step (Write a v) w
  = with_timer
      (Some {| due := clock w + debounceDelay;
               callback := Fork (fetchDocuments (set_axis a v (state w)))
                             (Ret tt) |})
      (with_memoDeps (deps (set_axis a v (state w)))
         (with_state (set_axis a v) w)).
Proof.
  intros Hm Hc. unfold step, dispatch. rewrite run_setAxis.
  unfold park, commit. cbn [state memoDeps with_state]. rewrite Hm.
  unfold changes in Hc. apply negb_true_iff in Hc. now rewrite Hc.
Qed.

(** A write of the value the axis already has leaves timer and effects
    alone. *)
Lemma write_unchanging (w : World) (a : Axis) (v : string) :
  memoDeps w = deps (state w) ->
  changes a v (state w) = false ->
  step (Write a v) w = with_state (set_axis a v) w.
Proof.
  intros Hm Hc. unfold step, dispatch. rewrite run_setAxis.
  unfold park. apply commit_committed. cbn [state memoDeps with_state].
  rewrite Hm. symmetry. now apply deps_set_axis_same.
Qed.

Lemma elapse_waiting (w : World) (tm : Timer) (dt : N) :
  debounceTimer w = Some tm ->
  (due tm <=? clock w + dt)%N = false ->
  step (Elapse dt) w = with_clock (clock w + dt) w.
Proof. intros Ht Hd. cbn. unfold elapse. now rewrite Ht, Hd. Qed.

(** A timer that falls due calls [fetchDocuments] of the render that set
    it; the request is logged at the due time and no timer is left. *)
Lemma elapse_firing (w : World) (render : State) (at_ dt : N) :
  memoDeps w = deps (state w) ->
  debounceTimer w
  = Some {| due := at_; callback := Fork (fetchDocuments render) (Ret tt) |} ->
  (at_ <=? clock w + dt)%N = true ->
  debounceTimer (step (Elapse dt) w) = None
  /\ log (step (Elapse dt) w)
     = (log w ++ [(at_, Requested (refresh_request render))])%list.
Proof.
  intros Hm Ht Hd. cbn. unfold elapse. rewrite Ht. cbn. rewrite Hd.
  unfold dispatch. cbn. rewrite commit_committed; [split; reflexivity|].
  cbn. exact Hm.
Qed.

Lemma burst_keeps_scheduled (ws : list TimedWrite) :
  forall (w : World) (last : N),
    scheduled w last ->
    refresh_pending ws w = true ->
    scheduled (play ws w) (last_change ws (state w) (clock w) last)
    /\ state (play ws w) = last_written ws (state w)
    /\ log (play ws w) = log w
    /\ (all_change ws (state w) = true -> last = clock w ->
        last_change ws (state w) (clock w) last = clock (play ws w)).
Proof.
  induction ws as [| [gap [a v]] ws IH]; intros w last Hs Hp.
  - cbn. split; [exact Hs|]. repeat split. auto.
  - destruct Hs as (Hm & Hle & render & Hr & Ht).
    cbn [refresh_pending] in Hp.
    destruct (last + debounceDelay <=? clock w + gap)%N eqn:Hdue.
    { destruct (elapse_firing w render _ gap Hm Ht Hdue) as [Hnone _].
      rewrite Hnone in Hp. discriminate Hp. }
    pose proof (elapse_waiting w _ gap Ht Hdue) as Hw1.
    rewrite Hw1 in Hp. cbn [debounceTimer with_clock] in Hp. rewrite Ht in Hp.
    cbn [play last_change last_written fold_left all_change fst snd].
    rewrite Hw1.
    set (w1 := with_clock (clock w + gap) w) in *.
    assert (Hm1 : memoDeps w1 = deps (state w1)) by exact Hm.
    destruct (changes a v (state w)) eqn:Hc.
    + pose proof (write_changing w1 a v Hm1 Hc) as Hw2.
      rewrite Hw2 in *.
      match goal with |- context [play ws ?x] => set (w2 := x) in * end.
      assert (Hs2 : scheduled w2 (clock w + gap)).
      { split; [reflexivity|]. split; [cbn; lia|].
        exists (set_axis a v (state w)). split; reflexivity. }
      destruct (IH w2 (clock w + gap)%N Hs2 Hp) as (H1 & H2 & H3 & H4).
      split; [exact H1|]. split; [exact H2|]. split; [exact H3|].
      intros Hall _. cbn [andb] in Hall. apply H4; [exact Hall|reflexivity].
    + pose proof (write_unchanging w1 a v Hm1 Hc) as Hw2.
      rewrite Hw2 in *.
      match goal with |- context [play ws ?x] => set (w2 := x) in * end.
      assert (Hs2 : scheduled w2 last).
      { split.
        - cbn. rewrite Hm. symmetry. now apply deps_set_axis_same.
        - split; [cbn; lia|]. exists render. split; [|exact Ht].
          cbn. rewrite Hr. symmetry. now apply deps_set_axis_same. }
      destruct (IH w2 last Hs2 Hp) as (H1 & H2 & H3 & _).
      split; [exact H1|]. split; [exact H2|]. split; [exact H3|].
      intros Hall _. discriminate Hall.
Qed.

Lemma refreshes_snoc (w w1 : World) (t : N) (render : State) :
  log w1 = (log w ++ [(t, Requested (refresh_request render))])%list ->
  refreshes w1 = (refreshes w ++ [(t, refresh_request render)])%list.
Proof.
  intro H. unfold refreshes, requests. rewrite H, flat_map_app, filter_app.
  reflexivity.
Qed.

Lemma refreshes_same_log (w w1 : World) :
  log w1 = log w -> refreshes w1 = refreshes w.
Proof. intro H. unfold refreshes, requests. now rewrite H. Qed.

(** A burst within the window in which every write changes the vector
    always finds the refresh scheduled. *)
Lemma pending_when_all_change (ws : list TimedWrite) :
  forall w : World,
    scheduled w (clock w) ->
    all_change ws (state w) = true ->
    within_window ws = true ->
    refresh_pending ws w = true.
Proof.
  induction ws as [| [gap [a v]] ws IH]; intros w Hs Hall Hwin;
    [reflexivity|].
  destruct Hs as (Hm & _ & render & Hr & Ht).
  cbn [all_change] in Hall. apply andb_true_iff in Hall.
  destruct Hall as [Hc Hall].
  cbn [within_window forallb fst] in Hwin. apply andb_true_iff in Hwin.
  destruct Hwin as [Hgap Hwin]. apply N.ltb_lt in Hgap.
  assert (Hdue : (clock w + debounceDelay <=? clock w + gap)%N = false)
    by (apply N.leb_gt; lia).
  cbn [refresh_pending]. rewrite (elapse_waiting w _ gap Ht Hdue).
  cbn [debounceTimer with_clock]. rewrite Ht.
  set (w1 := with_clock (clock w + gap) w).
  assert (Hm1 : memoDeps w1 = deps (state w1)) by exact Hm.
  rewrite (write_changing w1 a v Hm1 Hc).
  apply IH; [|exact Hall|exact Hwin].
  split; [reflexivity|]. split; [cbn; lia|].
  exists (set_axis a v (state w)). split; reflexivity.
Qed.

(** C1, amended.  A burst starts with a write that changes the filter
    vector; every later write finds the refresh still scheduled.  Then the
    state holds the last-written vector, no refresh is issued during the
    burst, and after the quiescence delay exactly one has been issued: for
    the last-written vector, at the time of the last write that changed the
    vector plus the delay.  When every write of the burst changes the
    vector, that is the time of the last write plus the delay. *)
Theorem debounce_trailing_on_change
  (w : World) (a : Axis) (v : string) (ws : list TimedWrite) :
  memoDeps w = deps (state w) ->
  changes a v (state w) = true ->
  refresh_pending ws (step (Write a v) w) = true ->
  let burst := play ws (step (Write a v) w) in
  let fired :=
    (last_change ws (set_axis a v (state w)) (clock w) (clock w)
     + debounceDelay)%N in
  state burst = last_written ws (set_axis a v (state w))
  /\ refreshes burst = refreshes w
  /\ refreshes (step (Elapse debounceDelay) burst)
     = (refreshes w ++ [(fired, refresh_request (state burst))])%list
  /\ (all_change ws (set_axis a v (state w)) = true ->
      fired = (clock burst + debounceDelay)%N).
Proof.
  intros Hm Hc Hp burst fired.
  pose proof (write_changing w a v Hm Hc) as Hw1.
  assert (Hs1 : scheduled (step (Write a v) w) (clock w)).
  { rewrite Hw1. split; [reflexivity|]. split; [cbn; lia|].
    exists (set_axis a v (state w)). split; reflexivity. }
  destruct (burst_keeps_scheduled ws _ _ Hs1 Hp) as (Hs & Hst & Hlog & Hall).
  fold burst in Hs, Hst, Hlog, Hall.
  assert (Hstate1 : state (step (Write a v) w) = set_axis a v (state w))
    by now rewrite Hw1.
  assert (Hclock1 : clock (step (Write a v) w) = clock w) by now rewrite Hw1.
  assert (Hlog1 : log (step (Write a v) w) = log w) by now rewrite Hw1.
  rewrite Hstate1, Hclock1 in *.
  destruct Hs as (Hmb & Hle & render & Hr & Ht).
  split; [exact Hst|].
  split; [apply refreshes_same_log; congruence|].
  split.
  - assert (Hdue : (last_change ws (set_axis a v (state w)) (clock w) (clock w)
                    + debounceDelay <=? clock burst + debounceDelay)%N = true)
      by (apply N.leb_le; lia).
    destruct (elapse_firing burst render _ debounceDelay Hmb Ht Hdue)
      as [_ Hfire].
    rewrite (refreshes_snoc burst _ _ render Hfire).
    rewrite (refreshes_same_log w burst) by congruence.
    unfold fired, refresh_request.
    now rewrite (fetch_params_deps render (state burst) Hr).
  - intro Hac. unfold fired. now rewrite Hall.
Qed.

Lemma debounce_trailing_on_change_witness :
  let w := world_two_docs true in
  let ws := [(300%N, (Query, "safety")); (100%N, (OrgUnit, "safety"))] in
  refreshes (step (Elapse debounceDelay) (play ws (step (Write Query "safety") w)))
  = (refreshes w
     ++ [(1900%N,
          {| method := GET; url := "http://localhost:5000/api/documents";
             params := [("search", "safety"); ("department", "safety")];
             headers := []; body := NoBody |})])%list.
Proof.
  intros w ws.
  destruct (debounce_trailing_on_change w Query "safety" ws
              eq_refl eq_refl eq_refl) as (_ & _ & H & _).
  exact H.
Defined.

(** Every render is committed: the hypothesis of the theorem above holds
    of all worlds the component can reach. *)
Lemma commit_is_committed (w : World) :
  memoDeps (commit w) = deps (state (commit w)).
Proof.
  unfold commit. destruct deps_eqb eqn:E; [|reflexivity].
  symmetry. now apply deps_eqb_eq.
Qed.

Lemma dispatch_is_committed (t : Task unit) (w : World) :
  memoDeps (dispatch t w) = deps (state (dispatch t w)).
Proof. unfold dispatch. destruct (run t w). apply commit_is_committed. Qed.

Lemma step_committed (e : Event) (w : World) :
  memoDeps w = deps (state w) ->
  memoDeps (step e w) = deps (state (step e w)).
Proof.
  intro Hm. destruct e; cbn [step]; try apply dispatch_is_committed.
  - unfold elapse. destruct (debounceTimer w) as [tm |]; [|exact Hm].
    destruct (due tm <=? clock w + dt)%N; [|exact Hm].
    cbn [memoDeps state with_clock]. apply dispatch_is_committed.
  - unfold respond. destruct (nth_error (inflight w) i) as [[req k] |];
      [apply dispatch_is_committed | exact Hm].
  - unfold on_row. destruct (nth_error (documents (state w)) i);
      [apply dispatch_is_committed | exact Hm].
  - unfold on_row. destruct (nth_error (documents (state w)) i);
      [apply dispatch_is_committed | exact Hm].
  - unfold on_row. destruct (nth_error (documents (state w)) i);
      [apply dispatch_is_committed | exact Hm].
Qed.

Lemma reachable_committed (answers : string -> bool) (es : list Event) :
  memoDeps (steps es (mount answers))
  = deps (state (steps es (mount answers))).
Proof.
  unfold steps. generalize (mount answers) (eq_refl : memoDeps (mount answers)
                                            = deps (state (mount answers))).
  induction es as [| e es IH]; intros w Hm; [exact Hm|].
  cbn [fold_left]. apply IH. now apply step_committed.
Qed.

(** ** Scenarios *)

(** The query is set to [safety] right after mounting; the one refresh asks
    for it and is answered with one document; that document is then deleted
    with the user's consent. *)
Example scenario_refresh_then_delete :
  let listed :=
    Resolved {| resp_status := 200;
                resp_body := Json (DocumentList [doc_d1] 1) |} in
  let deleted :=
    Resolved {| resp_status := 200; resp_body := Json EmptyObject |} in
  let w1 := steps [Write Query "safety"; Elapse 500; Respond 0 listed]
              (mount (always true)) in
  let w2 := steps [ClickDelete 0; Respond 0 deleted] w1 in
  map (fun tr => params (snd tr)) (refreshes w1) = [[("search", "safety")]]
  /\ documents (state w1) = [doc_d1]
  /\ totalDocuments (state w1) = 1%Z
  /\ documents (state w2) = []
  /\ totalDocuments (state w2) = 0%Z.
Proof. vm_compute. repeat split. Qed.

(** An upload that succeeds is followed by a refresh with the filter vector
    as it stands, and the file control is empty again. *)
Example scenario_upload_then_refresh :
  let created :=
    Resolved {| resp_status := 201; resp_body := Json (NewDocument doc_q3) |} in
  let w := steps [Write OrgUnit "finance"; Elapse 500;
                  SelectFiles [{| file_name := "report.pdf" |}];
                  Respond 1 created]
             (world_two_docs true) in
  map (fun tr => (method (snd tr), params (snd tr))) (requests w)
  = [(GET, []); (GET, [("department", "finance")]); (POST, []);
     (GET, [("department", "finance")])]
  /\ fileInput w = [].
Proof. vm_compute. repeat split. Qed.

(** * The rest of [App.jsx]: verification *)

(** ** Text helpers *)

Lemma toLower_not_upper (c : Ascii.ascii) : isUpper (toLower c) = false.
Proof. destruct c as [[] [] [] [] [] [] [] []]; reflexivity. Qed.

Lemma toLower_ascii (c : Ascii.ascii) :
  is_ascii_char c = true -> is_ascii_char (toLower c) = true.
Proof.
  destruct c as [[] [] [] [] [] [] [] []]; intro H; exact H || reflexivity.
Qed.

Lemma toLower_keeps_space (c : Ascii.ascii) : isSpace (toLower c) = isSpace c.
Proof. destruct c as [[] [] [] [] [] [] [] []]; reflexivity. Qed.

Lemma string_forall_map (p : Ascii.ascii -> bool) (f : Ascii.ascii -> Ascii.ascii)
      (s : string) :
  (forall c, p (f c) = true) -> string_forall p (string_map f s) = true.
Proof. intro H. induction s as [| c s IH]; cbn; [reflexivity|]. now rewrite H. Qed.

Lemma string_forall_impl (p q : Ascii.ascii -> bool) (s : string) :
  (forall c, p c = true -> q c = true) ->
  string_forall p s = true -> string_forall q s = true.
Proof.
  intro H. induction s as [| c s IH]; cbn; [reflexivity|].
  intro Hs. apply andb_true_iff in Hs. destruct Hs as [Hc Hs].
  now rewrite (H c Hc), IH.
Qed.

Lemma string_forall_and (p q : Ascii.ascii -> bool) (s : string) :
  string_forall p s = true -> string_forall q s = true ->
  string_forall (fun c => p c && q c) s = true.
Proof.
  induction s as [| c s IH]; cbn; [reflexivity|]. intros Hp Hq.
  apply andb_true_iff in Hp, Hq. destruct Hp as [-> Hp], Hq as [-> Hq].
  now rewrite IH.
Qed.

(** The shape of one unfolding of [replace_spaces]. *)
Lemma replace_spaces_cons (c : Ascii.ascii) (s : string) :
  replace_spaces (String c s)
  = if isSpace c
    then if string_forall isSpace (charAt0 s) && negb (String.eqb s EmptyString)
         then replace_spaces s
         else String hyphen (replace_spaces s)
    else String c (replace_spaces s).
Proof.
  cbn [replace_spaces]. destruct (isSpace c); [|reflexivity].
  destruct s as [| c' s]; [reflexivity|].
  cbn [charAt0 string_forall String.eqb]. rewrite andb_true_r, andb_true_r.
  reflexivity.
Qed.

(** Characters kept by a predicate that also holds of the hyphen are kept
    through [replace_spaces]. *)
Lemma replace_spaces_forall (p : Ascii.ascii -> bool) (s : string) :
  p hyphen = true ->
  string_forall p s = true -> string_forall p (replace_spaces s) = true.
Proof.
  intro Hh. induction s as [| c s IH]; [reflexivity|].
  intro Hs. cbn [string_forall] in Hs. apply andb_true_iff in Hs.
  destruct Hs as [Hc Hs]. rewrite replace_spaces_cons.
  destruct (isSpace c).
  - destruct (_ && _); cbn [string_forall]; rewrite ?Hh; auto.
  - cbn [string_forall]. rewrite Hc. auto.
Qed.

Lemma replace_spaces_no_space (s : string) :
  string_forall (fun c => negb (isSpace c)) (replace_spaces s) = true.
Proof.
  induction s as [| c s IH]; [reflexivity|].
  rewrite replace_spaces_cons. destruct (isSpace c) eqn:Hc.
  - destruct (_ && _); cbn [string_forall]; auto.
  - cbn [string_forall]. now rewrite Hc.
Qed.

Lemma replace_spaces_id (s : string) :
  string_forall (fun c => negb (isSpace c)) s = true -> replace_spaces s = s.
Proof.
  induction s as [| c s IH]; [reflexivity|]. cbn [string_forall].
  intro H. apply andb_true_iff in H. destruct H as [Hc Hs].
  rewrite replace_spaces_cons. apply negb_true_iff in Hc. rewrite Hc.
  now rewrite IH.
Qed.

Lemma toLowerCase_id (s : string) :
  string_forall (fun c => negb (isUpper c)) s = true -> toLowerCase s = s.
Proof.
  induction s as [| c s IH]; [reflexivity|]. cbn [string_forall].
  intro H. apply andb_true_iff in H. destruct H as [Hc Hs].
  cbn. unfold toLower. apply negb_true_iff in Hc. rewrite Hc.
  f_equal. now apply IH.
Qed.

Lemma toLowerCase_ascii (s : string) :
  is_ascii s = true -> is_ascii (toLowerCase s) = true.
Proof.
  unfold is_ascii, toLowerCase. induction s as [| c s IH]; [reflexivity|].
  cbn [string_forall string_map]. intro H. apply andb_true_iff in H.
  destruct H as [Hc Hs]. now rewrite (toLower_ascii c Hc), IH.
Qed.

(** ** The type select *)

(** X1. The value of an option of the type select is in normal form: it is
    ASCII, holds no white space and no upper-case letter, and computing the
    value of a value gives it back. *)
Theorem docTypeValue_normal_form (label : string) :
  is_ascii label = true ->
  is_ascii (docTypeValue label) = true
  /\ string_forall (fun c => negb (isSpace c)) (docTypeValue label) = true
  /\ string_forall (fun c => negb (isUpper c)) (docTypeValue label) = true
  /\ docTypeValue (docTypeValue label) = docTypeValue label.
Proof.
  intro Ha. unfold docTypeValue.
  assert (Hup : string_forall (fun c => negb (isUpper c))
                  (replace_spaces (toLowerCase label)) = true).
  { apply replace_spaces_forall; [reflexivity|].
    apply string_forall_map. intro c. now rewrite toLower_not_upper. }
  assert (Hsp := replace_spaces_no_space (toLowerCase label)).
  split; [|split; [exact Hsp|split; [exact Hup|]]].
  - apply replace_spaces_forall; [reflexivity|].
    now apply toLowerCase_ascii.
  - rewrite (toLowerCase_id _ Hup). now apply replace_spaces_id.
Qed.

Lemma docTypeValue_normal_form_witness :
  docTypeValue "Safety   Circular" = "safety-circular"
  /\ docTypeValue (docTypeValue "Safety   Circular") = "safety-circular".
Proof.
  destruct (docTypeValue_normal_form "Safety   Circular" eq_refl)
    as (_ & _ & _ & H).
  split; [reflexivity|]. exact H.
Defined.

Lemma param_app (key : string) (ps qs : list (string * string)) :
  param key (ps ++ qs) = (param key ps ++ param key qs)%list.
Proof. apply filter_app. Qed.

(** What [fetchDocuments] sends for the type and the department once the
    select has written a value. *)
Lemma type_param_of (s : State) (v : string) :
  param "type" (fetch_params (set_selectedDocType v s))
  = if String.eqb v "all-types" then [] else [("type", v)].
Proof.
  unfold fetch_params. rewrite !param_app. cbn [selectedDocType searchQuery
    selectedDepartment set_selectedDocType].
  destruct (String.eqb (searchQuery s) EmptyString);
    destruct (String.eqb (selectedDepartment s) "all");
    destruct (String.eqb v "all-types"); reflexivity.
Qed.

Lemma department_param_of (s : State) (v : string) :
  param "department" (fetch_params (set_selectedDepartment v s))
  = if String.eqb v "all" then [] else [("department", v)].
Proof.
  unfold fetch_params. rewrite !param_app. cbn [selectedDocType searchQuery
    selectedDepartment set_selectedDepartment].
  destruct (String.eqb (searchQuery s) EmptyString);
    destruct (String.eqb v "all");
    destruct (String.eqb (selectedDocType s) "all-types"); reflexivity.
Qed.

(** The option values, computed. *)
Lemma docTypeOptions_values :
  docTypeOptions
  = ["all-types"; "safety-circular"; "invoice"; "engineering-drawing";
     "maintenance-report"; "policy"; "regulatory-directive"; "impact-study";
     "board-minutes"; "training-material"; "incident-report"].
Proof. vm_compute. reflexivity. Qed.

Lemma departmentOptions_values :
  departmentOptions
  = ["all"; "operations"; "engineering"; "safety"; "procurement"; "hr";
     "finance"; "environment"].
Proof. vm_compute. reflexivity. Qed.

(** X2. The first option of each select, and only the first, carries the
    sentinel the fetch tests against (and the initial state holds): choosing
    option [i] of the type select makes the refresh carry a [type] parameter
    exactly when [i] is not 0, with the value of that option; likewise for
    the department select.  The values of a select are pairwise distinct. *)
Theorem select_options_and_sentinels (s : State) (i : nat) (v : string) :
  (nth_error docTypeOptions i = Some v ->
   param "type" (fetch_params (set_selectedDocType v s))
   = if Nat.eqb i 0 then [] else [("type", v)])
  /\ (nth_error departmentOptions i = Some v ->
      param "department" (fetch_params (set_selectedDepartment v s))
      = if Nat.eqb i 0 then [] else [("department", v)])
  /\ hd_error docTypeOptions = Some (selectedDocType initialState)
  /\ hd_error departmentOptions = Some (selectedDepartment initialState)
  /\ NoDup docTypeOptions
  /\ NoDup departmentOptions.
Proof.
  rewrite docTypeOptions_values, departmentOptions_values.
  split; [|split; [|split; [reflexivity|split; [reflexivity|split]]]].
  - intro Hi. rewrite type_param_of.
    do 11 (destruct i as [| i];
           [cbn in Hi; injection Hi as <-; reflexivity|]).
    destruct i; discriminate Hi.
  - intro Hi. rewrite department_param_of.
    do 8 (destruct i as [| i];
          [cbn in Hi; injection Hi as <-; reflexivity|]).
    destruct i; discriminate Hi.
  - repeat constructor; cbn; intuition discriminate.
  - repeat constructor; cbn; intuition discriminate.
Qed.

Lemma select_options_and_sentinels_witness :
  param "type" (fetch_params (set_selectedDocType "invoice" initialState))
  = [("type", "invoice")]
  /\ param "department"
       (fetch_params (set_selectedDepartment "all" initialState)) = [].
Proof.
  destruct (select_options_and_sentinels initialState 2 "invoice") as [Ht _].
  destruct (select_options_and_sentinels initialState 0 "all") as (_ & Hd & _).
  exact (conj (Ht eq_refl) (Hd eq_refl)).
Defined.

(** ** Status badge and tables *)

(** X3. The badge colour tells the five known statuses apart and lumps all
    other statuses together: two statuses get the same classes exactly when
    they are equal or both unknown. *)
Theorem getStatusColor_separates (a b : string) :
  getStatusColor a = getStatusColor b
  <-> a = b \/ (~ In a knownStatuses /\ ~ In b knownStatuses).
Proof.
  unfold getStatusColor, knownStatuses.
  destruct (String.eqb_spec a "urgent") as [-> | A1];
  [| destruct (String.eqb_spec a "pending") as [-> | A2];
  [| destruct (String.eqb_spec a "review") as [-> | A3];
  [| destruct (String.eqb_spec a "approved") as [-> | A4];
  [| destruct (String.eqb_spec a "published") as [-> | A5]]]]];
  (destruct (String.eqb_spec b "urgent") as [-> | B1];
  [| destruct (String.eqb_spec b "pending") as [-> | B2];
  [| destruct (String.eqb_spec b "review") as [-> | B3];
  [| destruct (String.eqb_spec b "approved") as [-> | B4];
  [| destruct (String.eqb_spec b "published") as [-> | B5]]]]]);
  cbn [In];
  (split;
   [ intro H; first [ left; reflexivity | discriminate H
                    | right; intuition congruence ]
   | intros [H | [Ha Hb]];
     first [ reflexivity | discriminate H | congruence
           | exfalso; intuition congruence ] ]).
Qed.

Lemma toUpper_twice (c : Ascii.ascii) : toUpper (toUpper c) = toUpper c.
Proof. destruct c as [[] [] [] [] [] [] [] []]; reflexivity. Qed.

Lemma toLower_toUpper (c : Ascii.ascii) : toLower (toUpper c) = toLower c.
Proof. destruct c as [[] [] [] [] [] [] [] []]; reflexivity. Qed.

Lemma toUpper_ascii (c : Ascii.ascii) :
  is_ascii_char c = true -> is_ascii_char (toUpper c) = true.
Proof.
  destruct c as [[] [] [] [] [] [] [] []]; intro H; exact H || reflexivity.
Qed.

(** X4. The label shown for a status differs from the status in its first
    character at most: it has the same length and the same tail, it is the
    status again up to case, and labelling a label changes nothing.  The
    empty status gets the empty label. *)
Theorem statusLabel_capitalises (status : string) :
  is_ascii status = true ->
  String.length (statusLabel status) = String.length status
  /\ slice1 (statusLabel status) = slice1 status
  /\ toLowerCase (statusLabel status) = toLowerCase status
  /\ statusLabel (statusLabel status) = statusLabel status
  /\ is_ascii (statusLabel status) = true
  /\ (status = EmptyString <-> statusLabel status = EmptyString).
Proof.
  intro Ha. destruct status as [| c s].
  - repeat split; reflexivity.
  - unfold statusLabel. cbn [charAt0 slice1 toUpperCase string_map append].
    unfold is_ascii in *. cbn [string_forall] in Ha.
    apply andb_true_iff in Ha. destruct Ha as [Hc Hs].
    split; [reflexivity|]. split; [reflexivity|].
    split; [cbn; now rewrite toLower_toUpper|].
    split; [cbn; now rewrite toUpper_twice|].
    split; [cbn [string_forall]; now rewrite toUpper_ascii|].
    split; discriminate.
Qed.

Lemma statusLabel_capitalises_witness :
  statusLabel "urgent" = "Urgent"
  /\ statusLabel (statusLabel "urgent") = statusLabel "urgent".
Proof.
  destruct (statusLabel_capitalises "urgent" eq_refl) as (_ & _ & _ & H & _).
  split; [reflexivity|exact H].
Defined.

(** X5. Every row of an extracted table is rendered exactly once, the first
    as the header and the others, in order, as the body; an empty table
    renders neither.  The section is shown exactly when the document has a
    table, and it renders one table per extracted table. *)
Theorem table_rows_rendered_once (doc : Doc) (tableData : list (list string)) :
  match tableHeader tableData with
  | Some header => header :: tableBody tableData = tableData
  | None => tableData = [] /\ tableBody tableData = []
  end
  /\ length (tableBody tableData) = pred (length tableData)
  /\ (tablesSectionShown doc = true <-> renderedTables doc <> [])
  /\ length (renderedTables doc) = length (tables_data doc).
Proof.
  split; [destruct tableData; cbn; auto|].
  split; [destruct tableData; reflexivity|].
  unfold tablesSectionShown, renderedTables.
  split; [|apply length_map].
  destruct (tables_data doc); cbn; split; intro H;
    congruence || discriminate || reflexivity.
Qed.

(** ** Semantic search *)

Lemma string_forall_app (p : Ascii.ascii -> bool) (a b : string) :
  string_forall p (a ++ b) = string_forall p a && string_forall p b.
Proof.
  induction a as [| c a IH]; cbn; [reflexivity|].
  now rewrite IH, andb_assoc.
Qed.

Lemma string_forall_rev (p : Ascii.ascii -> bool) (s : string) :
  string_forall p (string_rev s) = string_forall p s.
Proof.
  induction s as [| c s IH]; cbn; [reflexivity|].
  rewrite string_forall_app, IH. cbn. rewrite andb_true_r. apply andb_comm.
Qed.

Lemma string_rev_empty (s : string) :
  string_rev s = EmptyString -> s = EmptyString.
Proof.
  destruct s as [| c s]; [reflexivity|]. cbn.
  destruct (string_rev s); discriminate.
Qed.

Lemma trimStart_empty (s : string) :
  trimStart s = EmptyString <-> string_forall isSpace s = true.
Proof.
  induction s as [| c s IH]; cbn; [tauto|].
  destruct (isSpace c); cbn; [exact IH|]. split; discriminate.
Qed.

Lemma trimStart_head (s : string) :
  string_forall isSpace (trimStart s) = true -> trimStart s = EmptyString.
Proof.
  induction s as [| c s IH]; cbn; [reflexivity|].
  destruct (isSpace c) eqn:Hc; [exact IH|]. cbn. rewrite Hc. discriminate.
Qed.

(** [trim] leaves nothing exactly of the strings made of white space. *)
Lemma trim_empty (s : string) :
  trim s = EmptyString <-> string_forall isSpace s = true.
Proof.
  unfold trim, trimEnd. split.
  - intro H. apply string_rev_empty in H. apply trimStart_empty in H.
    rewrite string_forall_rev in H. apply trimStart_head in H.
    now apply trimStart_empty.
  - intro H. apply trimStart_empty in H. now rewrite H.
Qed.

(** X6. A search is sent exactly when the query holds a character that is
    not white space.  A blank query only raises the alert: the state is
    untouched and nothing is posted.  Any other query is posted as typed,
    untrimmed, after the results and the error have been cleared and the
    loading flag raised. *)
Theorem semantic_search_needs_a_query
  {Result : Type} (s : SearchState Result) :
  is_ascii (semanticQuery s) = true ->
  (string_forall isSpace (semanticQuery s) = true ->
   handleSemanticSearch_begin s
   = (s, [SearchAlerted "Please enter a search query"], false))
  /\ (string_forall isSpace (semanticQuery s) = false ->
      handleSemanticSearch_begin s
      = ({| semanticQuery := semanticQuery s; semanticResults := [];
            semanticLoading := true; semanticError := None |},
         [SearchPosted (semanticQuery s)], true)).
Proof.
  intros _. unfold handleSemanticSearch_begin.
  destruct (String.eqb_spec (trim (semanticQuery s)) EmptyString) as [E | E].
  - apply trim_empty in E. rewrite E. split; [reflexivity|discriminate].
  - split; [|reflexivity]. intro H. apply trim_empty in H. contradiction.
Qed.

Lemma semantic_search_needs_a_query_witness :
  let blank : SearchState Doc :=
    {| semanticQuery := "   "; semanticResults := [doc_d1];
       semanticLoading := false; semanticError := None |} in
  let typed : SearchState Doc :=
    {| semanticQuery := " safety rules "; semanticResults := [doc_d1];
       semanticLoading := false; semanticError := Some "old" |} in
  handleSemanticSearch_begin blank
  = (blank, [SearchAlerted "Please enter a search query"], false)
  /\ snd (fst (handleSemanticSearch_begin typed))
     = [SearchPosted " safety rules "].
Proof.
  intros blank typed.
  destruct (semantic_search_needs_a_query blank eq_refl) as [Hb _].
  destruct (semantic_search_needs_a_query typed eq_refl) as [_ Ht].
  split; [exact (Hb eq_refl)|].
  exact (f_equal (fun x => snd (fst x)) (Ht eq_refl)).
Defined.

Lemma or_else_nonempty (a : option string) (b : string) :
  b <> EmptyString -> or_else a b <> EmptyString.
Proof.
  intro Hb. destruct a as [m |]; cbn; [|exact Hb].
  destruct (String.eqb_spec m EmptyString); assumption.
Qed.




(** ** Footprints *)

Lemma same_on_refl (bad : Cell -> bool) (s : State) : same_on bad s s.
Proof. repeat split. Qed.

Lemma same_on_trans (bad : Cell -> bool) (s1 s2 s3 : State) :
  same_on bad s1 s2 -> same_on bad s2 s3 -> same_on bad s1 s3.
Proof.
  intros (A1 & A2 & A3 & A4 & A5 & A6 & A7) (B1 & B2 & B3 & B4 & B5 & B6 & B7).
  repeat split; intro H;
    [ rewrite A1, B1 | rewrite A2, B2 | rewrite A3, B3 | rewrite A4, B4
    | rewrite A5, B5 | rewrite A6, B6 | rewrite A7, B7 ]; auto.
Qed.

(** An operation that does not touch the bad cells keeps them, and no
    operation changes anything of the world but the state, the file control
    and the log. *)
Lemma exec_same_on (bad : Cell -> bool) {B : Type} (op : Op B) (w : World) :
  touches bad op = false ->
  same_on bad (state w) (state (snd (exec op w))).
Proof.
  unfold touches. destruct op; cbn; intro H;
    try apply same_on_refl;
    repeat split; intro Hb; try reflexivity; congruence.
Qed.

Lemma exec_frame {B : Type} (op : Op B) (w : World) :
  inflight (snd (exec op w)) = inflight w
  /\ debounceTimer (snd (exec op w)) = debounceTimer w
  /\ memoDeps (snd (exec op w)) = memoDeps w
  /\ clock (snd (exec op w)) = clock w.
Proof. destruct op; repeat split. Qed.

Lemma avoids_mono (deep : bool) (bad bad' : Cell -> bool) {A : Type}
      (t : Task A) :
  (forall c, bad' c = true -> bad c = true) ->
  avoids deep bad t -> avoids deep bad' t.
Proof.
  intros Hsub H. induction H as
    [A a | A e | A B op k Hop Hk IH | A req k Hk IH | A child k Hc IHc Hk IHk].
  - constructor.
  - constructor.
  - constructor; [|exact IH]. unfold touches in *.
    destruct (writes op) as [c |]; [|reflexivity].
    destruct (bad' c) eqn:E; [|reflexivity]. rewrite (Hsub c E) in Hop.
    discriminate Hop.
  - constructor. exact IH.
  - constructor; assumption.
Qed.

Lemma avoids_shallow (bad : Cell -> bool) {A : Type} (t : Task A) :
  avoids true bad t -> avoids false bad t.
Proof.
  intro H. remember true as deep eqn:Hd. induction H as
    [A a | A e | A B op k Hop Hk IH | A req k Hk IH | A child k Hc IHc Hk IHk].
  - constructor.
  - constructor.
  - constructor; auto.
  - constructor. discriminate.
  - constructor; auto.
Qed.

Lemma avoids_bind (deep : bool) (bad : Cell -> bool) {A B : Type}
      (t : Task A) (f : A -> Task B) :
  avoids deep bad t -> (forall a, avoids deep bad (f a)) ->
  avoids deep bad (bind t f).
Proof.
  intros H Hf. induction H as
    [A a | A e | A C op k Hop Hk IH | A req k Hk IH | A child k Hc IHc Hk IHk];
    cbn [bind].
  - apply Hf.
  - constructor.
  - constructor; [exact Hop|]. intro b. now apply IH.
  - constructor. intros Hd r. now apply IH.
  - constructor; [exact Hc|]. now apply IHk.
Qed.

Lemma avoids_try_catch (deep : bool) (bad : Cell -> bool) {A : Type}
      (t : Task A) (h : string -> Task A) :
  avoids deep bad t -> (forall e, avoids deep bad (h e)) ->
  avoids deep bad (try_catch t h).
Proof.
  intros H Hh. induction H as
    [A a | A e | A C op k Hop Hk IH | A req k Hk IH | A child k Hc IHc Hk IHk];
    cbn [try_catch].
  - constructor.
  - apply Hh.
  - constructor; [exact Hop|]. intro b. now apply IH.
  - constructor. intros Hd r. now apply IH.
  - constructor; [exact Hc|]. now apply IHk.
Qed.

Lemma avoids_try_finally (deep : bool) (bad : Cell -> bool) {A : Type}
      (t : Task A) (f : Task unit) :
  avoids deep bad t -> avoids deep bad f ->
  avoids deep bad (try_finally t f).
Proof.
  intros H Hf. induction H as
    [A a | A e | A C op k Hop Hk IH | A req k Hk IH | A child k Hc IHc Hk IHk];
    cbn [try_finally].
  - apply avoids_bind; [exact Hf|]. intros _. constructor.
  - apply avoids_bind; [exact Hf|]. intros _. constructor.
  - constructor; [exact Hop|]. intro b. now apply IH.
  - constructor. intros Hd r. now apply IH.
  - constructor; [exact Hc|]. now apply IHk.
Qed.

Lemma avoids_perform (deep : bool) (bad : Cell -> bool) {B : Type} (op : Op B) :
  touches bad op = false -> avoids deep bad (perform op).
Proof. intro H. unfold perform. constructor; [exact H|]. intro b. constructor. Qed.

Lemma avoids_await_fetch (deep : bool) (bad : Cell -> bool) (req : Request) :
  avoids deep bad (await_fetch req).
Proof.
  unfold await_fetch, fetch. cbn [bind]. constructor. intros _ r.
  destruct r; constructor.
Qed.

Lemma avoids_json (deep : bool) (bad : Cell -> bool) (resp : Response) :
  avoids deep bad (json resp).
Proof. unfold json. destruct (resp_body resp); constructor. Qed.

(** Break a handler down to its operations. *)
Ltac footprint :=
  repeat first
    [ apply avoids_Ret
    | apply avoids_Throw
    | apply avoids_await_fetch
    | apply avoids_json
    | apply avoids_perform; reflexivity
    | apply avoids_try_finally
    | apply avoids_try_catch; [|intros ?]
    | apply avoids_bind; [|intros ?]
    | apply avoids_Fork
    | match goal with
      | |- avoids _ _ (if ?c then _ else _) => destruct c
      | |- avoids _ _ (match ?x with _ => _ end) => destruct x
      end ].

Lemma fetchDocuments_guarded (render : State) :
  avoids true guarded (fetchDocuments render).
Proof. unfold fetchDocuments. footprint. Qed.

Lemma handleFileUpload_guarded (render : State) :
  avoids true guarded (handleFileUpload render).
Proof.
  unfold handleFileUpload; footprint; try apply fetchDocuments_guarded.
Qed.

Lemma handleDeleteDocument_guarded (render : State) (docId : string) :
  avoids true guarded (handleDeleteDocument render docId).
Proof. unfold handleDeleteDocument. footprint. Qed.

Lemma handleStarDocument_guarded (doc : Doc) :
  avoids true guarded (handleStarDocument doc).
Proof. unfold handleStarDocument. footprint. Qed.

Lemma fetchDocuments_store (render : State) :
  avoids false store (fetchDocuments render).
Proof.
  unfold fetchDocuments, await_fetch, fetch. cbn.
  repeat (constructor; cbn; try reflexivity; try discriminate; intros).
Qed.


Lemma state_park (o : Outcome unit) (w : World) : state (park o w) = state w.
Proof. now destruct o. Qed.

Lemma frame_park (o : Outcome unit) (w : World) :
  debounceTimer (park o w) = debounceTimer w
  /\ memoDeps (park o w) = memoDeps w
  /\ clock (park o w) = clock w
  /\ log (park o w) = log w.
Proof. now destruct o. Qed.

(** A run keeps the cells its task avoids. *)
Lemma run_same_on (deep : bool) (bad : Cell -> bool) {A : Type} (t : Task A) :
  avoids deep bad t ->
  forall w, same_on bad (state w) (state (snd (run t w))).
Proof.
  intro H. induction H as
    [A a | A e | A B op k Hop Hk IH | A req k Hk IH | A child k Hc IHc Hk IHk];
    intro w; cbn [run].
  - apply same_on_refl.
  - apply same_on_refl.
  - pose proof (exec_same_on bad op w Hop) as Hs.
    destruct (exec op w) as [b w1]. cbn [snd] in Hs.
    eapply same_on_trans; [exact Hs|apply IH].
  - apply same_on_refl.
  - pose proof (IHc w) as Hs. destruct (run child w) as [o w1].
    cbn [snd] in Hs. eapply same_on_trans; [exact Hs|].
    rewrite <- (state_park o w1). apply IHk.
Qed.

(** A run changes neither timer, memo nor clock. *)
Lemma run_frame {A : Type} (t : Task A) :
  forall w,
    debounceTimer (snd (run t w)) = debounceTimer w
    /\ memoDeps (snd (run t w)) = memoDeps w
    /\ clock (snd (run t w)) = clock w.
Proof.
  induction t as [A a | A e | A B op k IH | A req k IH | A child IHc k IHk];
    intro w; cbn [run].
  - repeat split.
  - repeat split.
  - destruct (exec_frame op w) as (_ & H1 & H2 & H3).
    destruct (exec op w) as [b w1]. cbn [snd] in *.
    destruct (IH b w1) as (G1 & G2 & G3). rewrite G1, G2, G3. auto.
  - repeat split.
  - destruct (IHc w) as (H1 & H2 & H3). destruct (run child w) as [o w1].
    cbn [snd] in *. destruct (frame_park o w1) as (P1 & P2 & P3 & _).
    destruct (IHk (park o w1)) as (G1 & G2 & G3).
    rewrite G1, G2, G3, P1, P2, P3. auto.
Qed.

(** Handlers parked by a run that avoids the bad cells throughout avoid
    them too, and so does what is left of the task itself. *)
Lemma run_inflight (bad : Cell -> bool) {A : Type} (t : Task A) :
  avoids true bad t ->
  forall w,
    Forall (fun e => forall r, avoids true bad (snd e r)) (inflight w) ->
    Forall (fun e => forall r, avoids true bad (snd e r))
      (inflight (snd (run t w)))
    /\ match fst (run t w) with
       | Suspended _ k => forall r, avoids true bad (k r)
       | _ => True
       end.
Proof.
  intro H. remember true as deep eqn:Hd. induction H as
    [A a | A e | A B op k Hop Hk IH | A req k Hk IH | A child k Hc IHc Hk IHk];
    intros w Hw; cbn [run].
  - cbn. auto.
  - cbn. auto.
  - destruct (exec_frame op w) as (Hf & _).
    destruct (exec op w) as [b w1]. cbn [snd] in Hf.
    apply (IH b). now rewrite Hf.
  - cbn. split; [exact Hw|]. now apply Hk.
  - destruct (IHc w Hw) as [Hw1 Ho]. destruct (run child w) as [o w1].
    cbn [fst snd] in *. apply IHk.
    destruct o as [[] | e | req kc]; cbn; try exact Hw1.
    apply Forall_app. split; [exact Hw1|]. constructor; [exact Ho|constructor].
Qed.


(** ** The invariant of the event loop *)

Lemma settled_mount (answers : string -> bool) : settled (mount answers).
Proof.
  split; [reflexivity|]. split; [constructor|]. cbn.
  split; [lia|]. exists initialState. split; reflexivity.
Qed.

(** A handler that avoids the guarded cells keeps the invariant and those
    cells; no render after it sets a timer. *)
Lemma dispatch_handler (t : Task unit) (w : World) :
  settled w ->
  avoids true guarded t ->
  settled (dispatch t w)
  /\ same_on guarded (state w) (state (dispatch t w))
  /\ (forall bad, avoids false bad t ->
      same_on bad (state w) (state (dispatch t w)))
  /\ debounceTimer (dispatch t w) = debounceTimer w
  /\ clock (dispatch t w) = clock w.
Proof.
  intros (Hm & Hfl & Htm) Ht. unfold dispatch.
  pose proof (run_same_on true guarded t Ht w) as Hs.
  pose proof (fun bad H => run_same_on false bad t H w) as Hsh.
  destruct (run_frame t w) as (Ft & Fm & Fc).
  destruct (run_inflight guarded t Ht w Hfl) as [Hfl1 Ho].
  destruct (run t w) as [o w1]. cbn [fst snd] in *.
  destruct (frame_park o w1) as (Pt & Pm & Pc & _).
  assert (Hdeps : deps (state (park o w1)) = deps (state w)).
  { rewrite state_park. symmetry. now apply Hs. }
  assert (Hcommit : commit (park o w1) = park o w1).
  { apply commit_committed. now rewrite Pm, Fm, Hdeps. }
  rewrite Hcommit. rewrite state_park.
  split; [|split; [exact Hs|split; [exact Hsh|split; congruence]]].
  split; [now rewrite Pm, Fm, state_park, <- (proj1 (proj2 Hs) eq_refl)|].
  split.
  - destruct o as [[] | e | req k]; cbn; try exact Hfl1.
    apply Forall_app. split; [exact Hfl1|]. constructor; [exact Ho|constructor].
  - rewrite Pt, Ft, Pc, Fc. destruct (debounceTimer w) as [tm |]; [|exact I].
    destruct Htm as (Hdue & render & Hr & Hcb). split; [exact Hdue|].
    exists render. split; [|exact Hcb].
    rewrite state_park. now rewrite Hr, (proj1 (proj2 Hs) eq_refl).
Qed.

(** A single state write other than to a filter axis. *)
Lemma dispatch_sync (op : Op unit) (w : World) :
  settled w ->
  touches (only CFilter) op = false ->
  settled (dispatch (perform op) w)
  /\ (forall bad, touches bad op = false ->
      same_on bad (state w) (state (dispatch (perform op) w)))
  /\ debounceTimer (dispatch (perform op) w) = debounceTimer w
  /\ clock (dispatch (perform op) w) = clock w.
Proof.
  intros (Hm & Hfl & Htm) Hop. unfold dispatch, perform. cbn [run].
  pose proof (exec_same_on (only CFilter) op w Hop) as Hs.
  pose proof (fun bad H => exec_same_on bad op w H) as Hall.
  destruct (exec_frame op w) as (Ff & Ft & Fm & Fc).
  destruct (exec op w) as [[] w1]. cbn [run park snd] in *.
  assert (Hdeps : deps (state w1) = deps (state w))
    by (symmetry; now apply Hs).
  rewrite commit_committed by congruence.
  split; [|split; [exact Hall|split; assumption]].
  split; [congruence|]. split; [now rewrite Ff|].
  rewrite Ft, Fc. destruct (debounceTimer w) as [tm |]; [|exact I].
  destruct Htm as (Hdue & render & Hr & Hcb). split; [exact Hdue|].
  exists render. split; [congruence|exact Hcb].
Qed.

Lemma dispatch_ret (w : World) : settled w -> dispatch (Ret tt) w = w.
Proof. intros (Hm & _). unfold dispatch. cbn. now apply commit_committed. Qed.

Lemma settled_write (w : World) (a : Axis) (v : string) :
  settled w ->
  settled (step (Write a v) w)
  /\ same_on (fun c => negb (only CFilter c)) (state w)
       (state (step (Write a v) w)).
Proof.
  intros (Hm & Hfl & Htm).
  destruct (changes a v (state w)) eqn:Hc.
  - rewrite (write_changing w a v Hm Hc). split.
    + split; [reflexivity|]. split; [exact Hfl|]. cbn.
      split; [lia|]. exists (set_axis a v (state w)). split; reflexivity.
    + cbn. destruct a; repeat split; intro Hb; reflexivity || discriminate Hb.
  - rewrite (write_unchanging w a v Hm Hc).
    pose proof (deps_set_axis_same a v (state w) Hc) as Hd. split.
    + split; [cbn; congruence|]. split; [exact Hfl|]. cbn.
      destruct (debounceTimer w) as [tm |]; [|exact I].
      destruct Htm as (Hdue & render & Hr & Hcb). split; [exact Hdue|].
      exists render. split; [congruence|exact Hcb].
    + cbn. destruct a; repeat split; intro Hb; reflexivity || discriminate Hb.
Qed.

Lemma settled_with_clock (w : World) (t : N) :
  (clock w <= t)%N -> settled w -> settled (with_clock t w).
Proof.
  intros Ht (Hm & Hfl & Htm). split; [exact Hm|]. split; [exact Hfl|]. cbn.
  destruct (debounceTimer w) as [tm |]; [|exact I].
  destruct Htm as (Hdue & Hrest). split; [lia|exact Hrest].
Qed.

Lemma settled_elapse (w : World) (dt : N) :
  settled w ->
  settled (elapse dt w)
  /\ same_on guarded (state w) (state (elapse dt w))
  /\ same_on store (state w) (state (elapse dt w)).
Proof.
  intro Hw. pose proof Hw as (Hm & Hfl & Htm). unfold elapse.
  destruct (debounceTimer w) as [tm |] eqn:Et.
  - destruct (due tm <=? clock w + dt)%N eqn:Hdue.
    + destruct Htm as (_ & render & Hr & Hcb). rewrite Hcb.
      set (w0 := with_clock (due tm) (with_timer None w)).
      assert (Hw0 : settled w0).
      { split; [exact Hm|]. split; [exact Hfl|exact I]. }
      assert (Hg : avoids true guarded (Fork (fetchDocuments render) (Ret tt)))
        by (constructor; [apply fetchDocuments_guarded|constructor]).
      destruct (dispatch_handler _ w0 Hw0 Hg) as (Hs & Hsame & Hsh & Ht & Hc).
      split; [|split; [exact Hsame|]].
      * destruct Hs as (Hm1 & Hfl1 & _). split; [exact Hm1|].
        split; [exact Hfl1|].
        change (debounceTimer (with_clock (clock w + dt)
                  (dispatch (Fork (fetchDocuments render) (Ret tt)) w0)))
          with (debounceTimer
                  (dispatch (Fork (fetchDocuments render) (Ret tt)) w0)).
        rewrite Ht. exact I.
      * apply (Hsh store). constructor; [apply fetchDocuments_store|constructor].
    + split; [|split; apply same_on_refl].
      apply settled_with_clock; [lia|exact Hw].
  - split; [|split; apply same_on_refl].
    apply settled_with_clock; [lia|exact Hw].
Qed.

Lemma Forall_remove_nth {A : Type} (P : A -> Prop) (i : nat) (l : list A) :
  Forall P l -> Forall P (remove_nth i l).
Proof.
  intro H. revert i. induction H as [| x l Hx Hl IH]; intro i.
  - destruct i; constructor.
  - destruct i as [| i]; cbn; [exact Hl|]. constructor; [exact Hx|apply IH].
Qed.

Lemma settled_respond (w : World) (i : nat) (r : FetchResult) :
  settled w ->
  settled (respond i r w)
  /\ same_on guarded (state w) (state (respond i r w)).
Proof.
  intro Hw. pose proof Hw as (Hm & Hfl & Htm). unfold respond.
  destruct (nth_error (inflight w) i) as [[req k] |] eqn:Ei;
    [|split; [exact Hw|apply same_on_refl]].
  assert (Hk : avoids true guarded (k r)).
  { apply nth_error_In in Ei. rewrite Forall_forall in Hfl.
    exact (Hfl _ Ei r). }
  set (w0 := with_inflight (remove_nth i (inflight w)) w).
  assert (Hw0 : settled w0).
  { split; [exact Hm|]. split; [|exact Htm]. cbn.
    now apply Forall_remove_nth. }
  destruct (dispatch_handler _ w0 Hw0 Hk) as (Hs & Hsame & _).
  split; assumption.
Qed.


Lemma same_on_weaken (bad bad' : Cell -> bool) (s1 s2 : State) :
  (forall c, bad' c = true -> bad c = true) ->
  same_on bad s1 s2 -> same_on bad' s1 s2.
Proof.
  intros Hsub (A1 & A2 & A3 & A4 & A5 & A6 & A7).
  repeat split; intro H; auto.
Qed.

Lemma same_on_union (a b : Cell -> bool) (s1 s2 : State) :
  same_on a s1 s2 -> same_on b s1 s2 ->
  same_on (fun c => a c || b c) s1 s2.
Proof.
  intros (A1 & A2 & A3 & A4 & A5 & A6 & A7) (B1 & B2 & B3 & B4 & B5 & B6 & B7).
  repeat split; intro H; apply orb_true_iff in H; destruct H; auto.
Qed.

Lemma handleFileUpload_store (render : State) :
  avoids false store (handleFileUpload render).
Proof.
  unfold handleFileUpload, await_fetch, fetch, perform. cbn.
  constructor; [reflexivity|]. intros [| file files]; cbn.
  - constructor.
  - repeat (constructor; cbn; try reflexivity; try discriminate; intros).
Qed.

Lemma handleDeleteDocument_store (render : State) (docId : string) :
  avoids false store (handleDeleteDocument render docId).
Proof.
  unfold handleDeleteDocument, await_fetch, fetch, perform. cbn.
  constructor; [reflexivity|]. intros [|]; cbn.
  - constructor. discriminate.
  - constructor.
Qed.

Lemma handleStarDocument_store (doc : Doc) :
  avoids false store (handleStarDocument doc).
Proof.
  unfold handleStarDocument, await_fetch, fetch. cbn. constructor. discriminate.
Qed.

(** The frame of a handler that avoids the guarded cells throughout and the
    store up to its [await]. *)
Lemma dispatch_handler_frame (t : Task unit) (w : World) :
  settled w -> avoids true guarded t -> avoids false store t ->
  settled (dispatch t w)
  /\ same_on (fun c => guarded c || store c) (state w) (state (dispatch t w)).
Proof.
  intros Hw Hg Hs.
  destruct (dispatch_handler t w Hw Hg) as (H1 & H2 & H3 & _).
  split; [exact H1|]. apply same_on_union; [exact H2|now apply H3].
Qed.

Ltac cells := let c := fresh "c" in intro c; destruct c; cbn; congruence.

(** Every event keeps the invariant and the cells of its frame. *)
Lemma ui_step_settled (e : UiEvent) (w : World) :
  settled w ->
  settled (ui_step e w)
  /\ same_on (frame_of e) (state w) (state (ui_step e w)).
Proof.
  intro Hw. destruct e as [[a v | dt | i r | files | i | i | i | target]
                          | tab | action | i]; cbn [ui_step step].
  - destruct (settled_write w a v Hw) as [H1 H2]. split; [exact H1|].
    eapply same_on_weaken; [|exact H2]. cells.
  - destruct (settled_elapse w dt Hw) as (H1 & H2 & H3). split; [exact H1|].
    eapply same_on_weaken; [|exact (same_on_union _ _ _ _ H2 H3)]. cells.
  - destruct (settled_respond w i r Hw) as [H1 H2]. split; [exact H1|].
    eapply same_on_weaken; [|exact H2]. cells.
  - assert (Hw0 : settled (with_fileInput files w)) by exact Hw.
    destruct (dispatch_handler_frame _ _ Hw0
                (handleFileUpload_guarded (state w))
                (handleFileUpload_store (state w))) as [H1 H2].
    split; [exact H1|]. eapply same_on_weaken; [|exact H2]. cells.
  - unfold on_row. destruct (nth_error (documents (state w)) i) as [doc |];
      [|split; [exact Hw|apply same_on_refl]].
    destruct (dispatch_sync (SetViewingDocument (Some doc)) w Hw eq_refl)
      as (H1 & H2 & _).
    split; [exact H1|]. apply H2. reflexivity.
  - unfold on_row. destruct (nth_error (documents (state w)) i) as [doc |];
      [|split; [exact Hw|apply same_on_refl]].
    destruct (dispatch_handler_frame _ _ Hw (handleStarDocument_guarded doc)
                (handleStarDocument_store doc)) as [H1 H2].
    split; [exact H1|]. eapply same_on_weaken; [|exact H2]. cells.
  - unfold on_row. destruct (nth_error (documents (state w)) i) as [doc |];
      [|split; [exact Hw|apply same_on_refl]].
    destruct (dispatch_handler_frame _ _ Hw
                (handleDeleteDocument_guarded (state w) (_id doc))
                (handleDeleteDocument_store (state w) (_id doc))) as [H1 H2].
    split; [exact H1|]. eapply same_on_weaken; [|exact H2]. cells.
  - unfold modal_click. destruct (viewingDocument (state w));
      [destruct target; cbn [DocumentViewModal_click]|];
      try (rewrite (dispatch_ret w Hw); split; [exact Hw|apply same_on_refl]);
      (destruct (dispatch_sync (SetViewingDocument None) w Hw eq_refl)
         as (H1 & H2 & _);
       split; [exact H1|]; apply H2; reflexivity).
  - destruct (dispatch_sync (SetActiveTab tab) w Hw eq_refl) as (H1 & H2 & _).
    split; [exact H1|]. apply H2. reflexivity.
  - unfold handleQuickAction.
    destruct (String.eqb action "upload");
      [split; [exact Hw|apply same_on_refl]|].
    destruct (String.eqb action "search");
      [destruct (dispatch_sync (SetActiveTab "search") w Hw eq_refl)
         as (H1 & H2 & _); split; [exact H1|]; apply H2; reflexivity|].
    destruct (String.eqb action "report");
      [destruct (dispatch_sync (SetActiveTab "analytics") w Hw eq_refl)
         as (H1 & H2 & _); split; [exact H1|]; apply H2; reflexivity|].
    destruct (String.eqb action "alert").
    + match goal with |- context [perform (Alert ?m)] =>
        destruct (dispatch_sync (Alert m) w Hw eq_refl) as (H1 & H2 & _)
      end.
      split; [exact H1|]. apply H2. reflexivity.
    + rewrite (dispatch_ret w Hw). split; [exact Hw|apply same_on_refl].
  - unfold on_row. destruct (nth_error (documents (state w)) i) as [doc |];
      [|split; [exact Hw|apply same_on_refl]].
    unfold handleDownloadDocument.
    match goal with |- context [perform (Alert ?m)] =>
      destruct (dispatch_sync (Alert m) w Hw eq_refl) as (H1 & H2 & _)
    end.
    split; [exact H1|]. apply H2. reflexivity.
Qed.

Lemma ui_steps_settled (es : list UiEvent) (w : World) :
  settled w -> settled (ui_steps es w).
Proof.
  revert w. induction es as [| e es IH]; intros w Hw; [exact Hw|].
  cbn [ui_steps fold_left]. apply IH. now apply ui_step_settled.
Qed.


(** ** What each kind of event can change *)

(** X8. In every world the component can reach, only a write to a filter
    control changes the filter vector: no click, no upload, no passing of
    time and no response, however it turns out, writes an axis. *)
Theorem filter_vector_changes_only_by_writes
  (answers : string -> bool) (es : list UiEvent) (e : UiEvent) :
  is_write e = false ->
  let w := ui_steps es (mount answers) in
  searchQuery (state (ui_step e w)) = searchQuery (state w)
  /\ selectedDepartment (state (ui_step e w)) = selectedDepartment (state w)
  /\ selectedDocType (state (ui_step e w)) = selectedDocType (state w).
Proof.
  intros He w.
  assert (Hw : settled w) by apply ui_steps_settled, settled_mount.
  destruct (ui_step_settled e w Hw) as [_ (_ & Hf & _)].
  assert (Hd : deps (state w) = deps (state (ui_step e w))).
  { apply Hf. cbn. now rewrite He. }
  unfold deps in Hd. injection Hd as H1 H2 H3. auto.
Qed.

Lemma filter_vector_changes_only_by_writes_witness :
  let w := ui_steps [Core (Write Query "safety"); Core (Elapse 500)]
             (mount (always true)) in
  let listed :=
    Resolved {| resp_status := 200;
                resp_body := Json (DocumentList [doc_d1] 1) |} in
  searchQuery (state (ui_step (Core (Respond 0 listed)) w)) = "safety".
Proof.
  intros w listed.
  destruct (filter_vector_changes_only_by_writes (always true)
              [Core (Write Query "safety"); Core (Elapse 500)]
              (Core (Respond 0 listed)) eq_refl) as [H _].
  exact H.
Defined.

(** X9. The store is never changed ahead of the server: in every reachable
    world, an event other than the arrival of a response leaves the list and
    the total as they are. *)
Theorem store_changes_only_on_response
  (answers : string -> bool) (es : list UiEvent) (e : UiEvent) :
  is_respond e = false ->
  let w := ui_steps es (mount answers) in
  documents (state (ui_step e w)) = documents (state w)
  /\ totalDocuments (state (ui_step e w)) = totalDocuments (state w).
Proof.
  intros He w.
  assert (Hw : settled w) by apply ui_steps_settled, settled_mount.
  destruct (ui_step_settled e w Hw) as [_ (_ & _ & Hd & Ht & _)].
  split; symmetry; [apply Hd|apply Ht]; cbn; now rewrite He.
Qed.

Lemma store_changes_only_on_response_witness :
  let listed := Resolved {| resp_status := 200;
                  resp_body := Json (DocumentList [doc_d1; doc_d2] 2) |} in
  let w := ui_steps [Core (Elapse 1000); Core (Respond 0 listed)]
             (mount (always true)) in
  documents (state (ui_step (Core (ClickDelete 0)) w)) = [doc_d1; doc_d2]
  /\ totalDocuments (state (ui_step (Core (ClickStar 1)) w)) = 2%Z.
Proof.
  intros listed w.
  destruct (store_changes_only_on_response (always true)
              [Core (Elapse 1000); Core (Respond 0 listed)]
              (Core (ClickDelete 0)) eq_refl) as [Hd _].
  destruct (store_changes_only_on_response (always true)
              [Core (Elapse 1000); Core (Respond 0 listed)]
              (Core (ClickStar 1)) eq_refl) as [_ Ht].
  exact (conj Hd Ht).
Defined.

(** X10. In every reachable world the inspection target is changed only by
    the view button and by clicks on the modal, and the active tab only by
    the sidebar, the search button and the quick actions; responses and
    timers touch neither. *)
Theorem target_and_tab_have_their_own_writers
  (answers : string -> bool) (es : list UiEvent) (e : UiEvent) :
  let w := ui_steps es (mount answers) in
  (is_view e = false ->
   viewingDocument (state (ui_step e w)) = viewingDocument (state w))
  /\ (is_navigation e = false ->
      activeTab (state (ui_step e w)) = activeTab (state w)).
Proof.
  intro w.
  assert (Hw : settled w) by apply ui_steps_settled, settled_mount.
  destruct (ui_step_settled e w Hw) as [_ (Ht & _ & _ & _ & _ & _ & Hv)].
  split; intro He; symmetry; [apply Hv|apply Ht]; cbn; now rewrite He.
Qed.

Lemma target_and_tab_have_their_own_writers_witness :
  let es := [Core (Elapse 1000);
             Core (Respond 0
               (Resolved {| resp_status := 200;
                            resp_body := Json (DocumentList [doc_d1] 1) |}));
             Navigate "documents"; Core (ClickView 0)] in
  let w := ui_steps es (mount (always true)) in
  viewingDocument (state (ui_step (Core (ClickDelete 0)) w)) = Some doc_d1
  /\ activeTab (state (ui_step (Core (ClickDelete 0)) w)) = "documents".
Proof.
  intros es w.
  destruct (target_and_tab_have_their_own_writers (always true) es
              (Core (ClickDelete 0))) as [Hv Ht].
  exact (conj (Hv eq_refl) (Ht eq_refl)).
Defined.


(** ** Timers and answers *)

(** X11. In every reachable world a pending refresh is due within the
    debounce delay and, when it fires, asks for the filter vector the state
    holds at that moment; time passing issues no other request. *)
Theorem pending_refresh_asks_for_current_vector
  (answers : string -> bool) (es : list UiEvent) (dt : N) :
  let w := ui_steps es (mount answers) in
  match debounceTimer w with
  | Some tm =>
      (due tm <= clock w + debounceDelay)%N
      /\ refreshes (step (Elapse dt) w)
         = if (due tm <=? clock w + dt)%N
           then (refreshes w ++ [(due tm, refresh_request (state w))])%list
           else refreshes w
  | None => refreshes (step (Elapse dt) w) = refreshes w
  end.
Proof.
  intro w.
  assert (Hw : settled w) by apply ui_steps_settled, settled_mount.
  destruct Hw as (Hm & _ & Htm).
  destruct (debounceTimer w) as [tm |] eqn:Et.
  - destruct Htm as (Hdue & render & Hr & Hcb). split; [exact Hdue|].
    destruct (due tm <=? clock w + dt)%N eqn:Hd.
    + destruct tm as [at_ cb]. cbn [callback due] in *. subst cb.
      destruct (elapse_firing w render at_ dt Hm Et Hd) as [_ Hlog].
      rewrite (refreshes_snoc w _ _ render Hlog).
      unfold refresh_request. now rewrite (fetch_params_deps _ _ Hr).
    + now rewrite (elapse_waiting w tm dt Et Hd).
  - cbn [step]. unfold elapse. now rewrite Et.
Qed.

(** X12. The detail view keeps the record it was opened on: after row [i]
    is viewed and then starred, and the star confirmed, the modal still holds
    the record with its old flag while the row holds the new one. *)
Theorem modal_keeps_the_record_it_was_opened_on
  (w : World) (i : nat) (doc : Doc) (r : FetchResult) :
  nth_error (documents (state w)) i = Some doc ->
  failed r = false ->
  let w' := steps [ClickView i; ClickStar i; Respond (length (inflight w)) r]
              w in
  viewingDocument (state w') = Some doc
  /\ nth_error (documents (state w')) i
     = Some (spread_starred doc (negb (starred doc)))
  /\ option_map starred (viewingDocument (state w'))
     <> option_map starred (nth_error (documents (state w')) i).
Proof.
  intros Hi Hf w'. subst w'. unfold steps. cbn [fold_left].
  destruct (click_view w i doc Hi) as (Hs1 & _ & Hf1).
  set (w1 := step (ClickView i) w) in *.
  assert (Hi1 : nth_error (documents (state w1)) i = Some doc)
    by now rewrite Hs1.
  destruct (click_star w1 i doc Hi1) as (Hs2 & Hf2).
  set (w2 := step (ClickStar i) w1) in *.
  rewrite <- Hf1.
  destruct (respond_star w2 doc w1 r (inflight w1) Hf2 Hf) as (Hs3 & _).
  rewrite Hs3, Hs2, Hs1.
  cbn [viewingDocument documents set_documents set_viewingDocument].
  rewrite restar_lookup, Hi. cbn [option_map]. rewrite String.eqb_refl.
  split; [reflexivity|]. split; [reflexivity|].
  cbn. destruct (starred doc); discriminate.
Qed.

Lemma modal_keeps_the_record_it_was_opened_on_witness :
  let confirmed :=
    Resolved {| resp_status := 200; resp_body := Json EmptyObject |} in
  let w' := steps [ClickView 0; ClickStar 0; Respond 0 confirmed]
              (world_two_docs true) in
  viewingDocument (state w') = Some doc_d1
  /\ nth_error (documents (state w')) 0 = Some (spread_starred doc_d1 false).
Proof.
  intros confirmed w'.
  destruct (modal_keeps_the_record_it_was_opened_on (world_two_docs true) 0
              doc_d1 confirmed eq_refl eq_refl) as (Hv & Hr & _).
  exact (conj Hv Hr).
Defined.


(** ** Deleting a row *)

Lemma without_keeps_all (docId : string) (docs : list Doc) :
  ~ In docId (map _id docs) -> without docId docs = docs.
Proof.
  unfold without. induction docs as [| d docs IH]; [reflexivity|].
  cbn [map In filter]. intro H.
  destruct (String.eqb_spec (_id d) docId) as [E | E].
  - exfalso. apply H. now left.
  - cbn [negb]. f_equal. apply IH. intro Hin. apply H. now right.
Qed.

(** With unique identifiers, filtering out the identifier of row [i] removes
    row [i] and nothing else. *)
Lemma without_row (docs : list Doc) :
  forall (i : nat) (doc : Doc),
    NoDup (map _id docs) ->
    nth_error docs i = Some doc ->
    without (_id doc) docs = (firstn i docs ++ skipn (S i) docs)%list.
Proof.
  induction docs as [| d docs IH]; intros i doc Hnd Hi.
  - destruct i; discriminate Hi.
  - cbn [map] in Hnd. inversion Hnd as [| ? ? Hnotin Hnd']; subst.
    destruct i as [| i].
    + injection Hi as ->. unfold without. cbn [filter].
      rewrite String.eqb_refl. cbn [negb firstn skipn app].
      now apply without_keeps_all.
    + cbn [nth_error] in Hi. unfold without. cbn [filter firstn skipn app].
      destruct (String.eqb_spec (_id d) (_id doc)) as [E | E].
      * exfalso. apply Hnotin. rewrite E. apply in_map.
        eapply nth_error_In; eauto.
      * cbn [negb]. f_equal. now apply IH.
Qed.

Lemma click_delete (w : World) (i : nat) (doc : Doc) :
  nth_error (documents (state w)) i = Some doc ->
  confirmAnswer w delete_prompt = true ->
  state (step (ClickDelete i) w) = state w
  /\ confirmAnswer (step (ClickDelete i) w) = confirmAnswer w
  /\ inflight (step (ClickDelete i) w)
     = (inflight w
        ++ [(delete_request (_id doc),
             resume (handleDeleteDocument (state w) (_id doc)) w)])%list.
Proof.
  intros Hi Hc. cbn [step]. unfold on_row. rewrite Hi.
  unfold dispatch, resume, delete_prompt in *. cbn. rewrite Hc. cbn.
  rewrite state_commit, inflight_commit. unfold commit.
  destruct deps_eqb; repeat split.
Qed.

Lemma respond_delete (w w0 : World) (render : State) (docId : string)
      (r : FetchResult) (rest : list (Request * (FetchResult -> Task unit))) :
  confirmAnswer w0 delete_prompt = true ->
  inflight w
  = (rest ++ [(delete_request docId,
               resume (handleDeleteDocument render docId) w0)])%list ->
  failed r = false ->
  documents (state (step (Respond (length rest) r) w))
  = without docId (documents render)
  /\ totalDocuments (state (step (Respond (length rest) r) w))
     = minus_one (totalDocuments (state w)).
Proof.
  intros Hc Hfl Hf. cbn [step]. unfold respond.
  rewrite Hfl, nth_error_snoc, remove_nth_snoc.
  unfold dispatch, resume, delete_prompt in *. cbn. rewrite Hc. cbn.
  destruct r as [msg | resp]; [discriminate|].
  cbn in Hf. apply negb_false_iff in Hf. cbn. rewrite Hf. cbn.
  now rewrite state_commit.
Qed.




(** ** Quick actions and navigation *)

Lemma dispatch_perform_world (op : Op unit) (w : World) :
  settled w ->
  touches (only CFilter) op = false ->
  dispatch (perform op) w = snd (exec op w).
Proof.
  intros (Hm & _) Hop. unfold dispatch, perform. cbn [run].
  pose proof (exec_same_on (only CFilter) op w Hop) as Hs.
  destruct (exec_frame op w) as (_ & _ & Fm & _).
  destruct (exec op w) as [[] w1]. cbn [run park snd] in *.
  apply commit_committed. rewrite Fm, Hm. now apply Hs.
Qed.

Lemma mainContent_at_most_one (s : State) : (length (mainContent s) <= 1)%nat.
Proof.
  unfold mainContent.
  destruct (String.eqb_spec (activeTab s) "dashboard") as [-> | _];
    [cbn; lia|].
  destruct (String.eqb_spec (activeTab s) "documents") as [-> | _];
    [cbn; lia|].
  destruct (String.eqb_spec (activeTab s) "search") as [-> | _];
    [cbn; lia|].
  destruct (String.eqb (activeTab s) "analytics"); cbn; lia.
Qed.

(** X14. In every reachable world a quick action does what its name says
    and nothing else: [search] and [report] switch the tab, so that exactly
    the search pane, respectively the analytics pane, is rendered; [alert]
    only raises its alert; [upload] and any unknown action leave the world
    as it is.  No quick action issues a request or sets a timer, and at most
    one pane is rendered in any state. *)
Theorem quick_actions_only_navigate
  (answers : string -> bool) (es : list UiEvent) (action : string) :
  let w := ui_steps es (mount answers) in
  let w' := ui_step (QuickAction action) w in
  state w' = (if String.eqb action "search"
              then set_activeTab "search" (state w)
              else if String.eqb action "report"
              then set_activeTab "analytics" (state w)
              else state w)
  /\ (String.eqb action "search" = true ->
      mainContent (state w') = [SearchContent])
  /\ (String.eqb action "report" = true ->
      mainContent (state w') = [AnalyticsContent])
  /\ (String.eqb action "search" || String.eqb action "report"
      || String.eqb action "alert" = false -> w' = w)
  /\ inflight w' = inflight w
  /\ debounceTimer w' = debounceTimer w
  /\ requests w' = requests w
  /\ (length (mainContent (state w')) <= 1)%nat.
Proof.
  intros w w'.
  assert (Hw : settled w) by apply ui_steps_settled, settled_mount.
  assert (Hlast := mainContent_at_most_one (state w')).
  subst w'. cbn [ui_step] in *. unfold handleQuickAction in *.
  destruct (String.eqb_spec action "upload") as [-> | _].
  { cbn. repeat split; try discriminate. exact Hlast. }
  destruct (String.eqb_spec action "search") as [-> | _].
  { rewrite (dispatch_perform_world (SetActiveTab "search") w Hw eq_refl)
      in *. cbn.
    repeat split; try discriminate. exact Hlast. }
  destruct (String.eqb_spec action "report") as [-> | _].
  { rewrite (dispatch_perform_world (SetActiveTab "analytics") w Hw eq_refl)
      in *. cbn.
    repeat split; try discriminate. exact Hlast. }
  destruct (String.eqb_spec action "alert") as [-> | _].
  { match goal with |- context [perform (Alert ?m)] =>
      rewrite (dispatch_perform_world (Alert m) w Hw eq_refl) in *
    end. cbn.
    repeat split; try discriminate.
    - unfold requests. cbn. rewrite flat_map_app. cbn. apply app_nil_r.
    - exact Hlast. }
  rewrite (dispatch_ret w Hw) in *. cbn.
  repeat split; try discriminate. exact Hlast.
Qed.

Lemma quick_actions_only_navigate_witness :
  let w := ui_steps [] (mount (always true)) in
  mainContent (state (ui_step (QuickAction "search") w)) = [SearchContent]
  /\ mainContent (state (ui_step (QuickAction "report") w))
     = [AnalyticsContent]
  /\ ui_step (QuickAction "refresh") w = w.
Proof.
  intro w.
  destruct (quick_actions_only_navigate (always true) [] "search")
    as (_ & Hs & _).
  destruct (quick_actions_only_navigate (always true) [] "report")
    as (_ & _ & Hr & _).
  destruct (quick_actions_only_navigate (always true) [] "refresh")
    as (_ & _ & _ & Hn & _).
  exact (conj (Hs eq_refl) (conj (Hr eq_refl) (Hn eq_refl))).
Defined.
